(** * gcp-cloud-run deploy executor: command compilation

    A shallow embedding of [src/executors/deploy/deploy.impl.ts] (the current
    executor, built on [yargs-unparser], and the earlier executor built on
    [buildCommand]) together with the properties of the compiled
    [gcloud run deploy] command line.

    Conventions.
    - A JavaScript string is a [string]; each [ascii] stands for one UTF-16
      code unit below 256.
    - An optional property ([field?: T]) is an [option]; [None] is [undefined].
    - A [number] option of the schema is an integer ([Z]).
    - Collaborators outside the file (the file system, [readJsonFile],
      [getOutputDirectoryFromBuildTarget], [execCommand]) are oracles carried
      by the context records; their exceptions are explicit outcomes. *)

From Stdlib Require Import String Ascii List ZArith Bool Lia DecimalString.
From Stdlib Require Import QArith.
Import ListNotations.
Local Close Scope Q_scope.
Local Open Scope list_scope.
Local Open Scope string_scope.

Set Implicit Arguments.

(** ** JavaScript values and operators *)

Module Js.

(** [Number.isSafeInteger(n)]: the integers that a JavaScript number holds
    exactly, from [-(2^53 - 1)] to [2^53 - 1]. *)
Definition safeInteger (n : Z) : Datatypes.bool :=
  (Z.abs n <=? 9007199254740991)%Z.

(** The numbers of the schema are counts and durations in seconds: a number
    is a safe integer. Fractions, [NaN], the infinities and the magnitudes
    that a JavaScript number rounds are outside the model. *)
Record Number : Type := numeral {
  integer : Z;
  safe : safeInteger integer = true
}.

Arguments numeral : clear implicits.

(** The scalar values that reach the argument object. *)
Inductive value : Type :=
| undefined
| null
| bool (b : Datatypes.bool)
| number (n : Number)
| str (s : string).

(** [Boolean(v)] *)
Definition truthy (v : value) : Datatypes.bool :=
  match v with
  | undefined | null => false
  | bool b => b
  | number n => negb (integer n =? 0)%Z
  | str s => negb (s =? "")
  end.

(** [a && b] *)
Definition and (a b : value) : value := if truthy a then b else a.

(** [a ?? b] *)
Definition coalesce (a b : value) : value :=
  match a with
  | undefined | null => b
  | _ => a
  end.

(** [`${n}`] for a safe integer: all its decimal digits, after a minus sign
    when it is negative. (The exponent that JavaScript prints from [1e+21]
    on is beyond the safe integers.) *)
Definition showNumber (n : Number) : string :=
  NilZero.string_of_int (Z.to_int (integer n)).

(** [`${v}`] *)
Definition toString (v : value) : string :=
  match v with
  | undefined => "undefined"
  | null => "null"
  | bool true => "true"
  | bool false => "false"
  | number n => showNumber n
  | str s => s
  end.

Definition ofString (o : option string) : value :=
  match o with Some s => str s | None => undefined end.

Definition ofNumber (o : option Number) : value :=
  match o with Some n => number n | None => undefined end.

Definition ofBool (o : option Datatypes.bool) : value :=
  match o with Some b => bool b | None => undefined end.

(** [`${s}`] for an optional string. *)
Definition template (o : option string) : string := toString (ofString o).

(** [Boolean(s)] for a string: only the empty string is falsy. *)
Definition nonEmpty (s : string) : Datatypes.bool := negb (s =? "").

(** [s.includes(sub)] *)
Fixpoint includes (sub s : string) : Datatypes.bool :=
  prefix sub s ||
  match s with
  | EmptyString => false
  | String _ s' => includes sub s'
  end.

(** [parts.join(sep)] *)
Definition join (sep : string) (parts : list string) : string :=
  String.concat sep parts.

(** [s.replace(/\./g, '-')] *)
Fixpoint replaceDots (s : string) : string :=
  match s with
  | EmptyString => EmptyString
  | String c s' => String (if (c =? ".")%char then "-"%char else c) (replaceDots s')
  end.

(** The double-quote character. *)
Definition dquote : ascii := Eval cbv in ascii_of_nat 34.

Definition quoted (s : string) : string :=
  String dquote (s ++ String dquote EmptyString).

End Js.

(** ** The [yargs-unparser] package

    [yargsUnparser(argv)] with no second argument, on an [argv] whose option
    values are scalars and whose keys are lower-case: the alias, default and
    camel-case filters of the package then only drop [undefined] values
    ([value === defaults[key]] with empty defaults). *)

Module Yargs.

Record Argv : Type := mkArgv {
  positional : list string;                 (* argv._ *)
  options : list (string * Js.value)        (* the other keys, in insertion order *)
}.

Definition keyToFlag (key : string) : string :=
  if (String.length key =? 1)%nat then "-" ++ key else "--" ++ key.

Definition unparseOption (key : string) (value : Js.value) : list string :=
  match value with
  | Js.str s => [keyToFlag key; s]
  | Js.bool true => [keyToFlag key]
  | Js.bool false => ["--no-" ++ key]
  | Js.number _ => [keyToFlag key; Js.toString value]
  | Js.null | Js.undefined => []
  end.

Definition unparseOptions (opts : list (string * Js.value)) : list string :=
  flat_map (fun kv => unparseOption (fst kv) (snd kv)) opts.

Definition yargsUnparser (argv : Argv) : list string :=
  (positional argv ++ unparseOptions (options argv))%list.

(** [argv[key]] *)
Fixpoint lookup (key : string) (opts : list (string * Js.value)) : option Js.value :=
  match opts with
  | [] => None
  | (k, v) :: rest => if k =? key then Some v else lookup key rest
  end.

(** [argv] without the property [key]. *)
Definition without (key : string) (argv : Argv) : Argv :=
  mkArgv (positional argv)
         (filter (fun kv => negb (fst kv =? key)) (options argv)).

End Yargs.

(** ** Events, exceptions and the execution monad *)

(** A path is the sequence of segments handed to [path.join]. *)
Definition Path : Type := list string.

(** [`${path}`]: the joined path, written with its separator. *)
Definition showPath (p : Path) : string := String.concat "/" p.

Inductive Event : Type :=
| LogInfo (message : string)
| LogWarn (message : string)
| FileWritten (path : Path) (content : string)
| Executed (command : string) (cwd : option Path) (dryRun : option bool).

Inductive Exception : Type :=
| Error (message : string)           (* [throw new Error(message)] in the executor *)
| TypeError (message : string)       (* raised by the language at run time *)
| Raised (message : string).         (* raised inside a collaborator *)

(** A computation emits events in order and ends in a value or an exception. *)
Definition Exec (A : Type) : Type := (list Event * (Exception + A))%type.

Definition ret {A} (a : A) : Exec A := ([], inr a).
Definition throw {A} (e : Exception) : Exec A := ([], inl e).
Definition emit (ev : Event) : Exec unit := ([ev], inr tt).

Definition bind {A B} (m : Exec A) (k : A -> Exec B) : Exec B :=
  match m with
  | (evs, inl e) => (evs, inl e)
  | (evs, inr a) => let (evs', r) := k a in ((evs ++ evs')%list, r)
  end.

Declare Scope exec_scope.
Delimit Scope exec_scope with exec.
Notation "x <- m ;; k" := (bind m (fun x => k))
  (at level 61, m at next level, right associativity) : exec_scope.
Notation "m ;; k" := (bind m (fun _ => k))
  (at level 61, right associativity) : exec_scope.

Definition events {A} (m : Exec A) : list Event := fst m.
Definition outcome {A} (m : Exec A) : Exception + A := snd m.

(** The computation ends in an [Error] thrown by the executor itself. *)
Definition throwsError {A} (m : Exec A) : Prop :=
  exists message, outcome m = inl (Error message).

Definition warnings (evs : list Event) : list string :=
  flat_map (fun ev => match ev with LogWarn m => [m] | _ => [] end) evs.

Definition executed (evs : list Event) : list string :=
  flat_map (fun ev => match ev with Executed c _ _ => [c] | _ => [] end) evs.

Definition isWarning (ev : Event) : bool :=
  match ev with LogWarn _ => true | _ => false end.

Definition notWarning (ev : Event) : bool := negb (isWarning ev).

(** Two computations end alike and emit the same events, warnings apart. *)
Definition sameButWarnings {A} (m m' : Exec A) : Prop :=
  outcome m = outcome m'
  /\ filter notWarning (events m) = filter notWarning (events m').

(** When the computation returns, its last event satisfies [P]. *)
Definition endsWith {A} (P : Event -> Prop) (m : Exec A) : Prop :=
  forall b, outcome m = inr b ->
            exists earlier ev, events m = (earlier ++ [ev])%list /\ P ev.

(** ** Collaborators *)

Inductive FileRead : Type :=
| ReadThrows (error : string)
| ReadOk (content : string).

(** The [version] member of a parsed manifest ([packageJson?.version]). *)
Inductive JsonValue : Type :=
| JsonAbsent                      (* no such member, or the document is not an object *)
| JsonNull
| JsonBool (b : bool)
| JsonNumber (q : Q)
| JsonString (s : string)
| JsonCompound.                   (* an object or an array *)

Inductive JsonRead : Type :=
| JsonThrows (error : string)     (* unreadable file or invalid JSON *)
| JsonParsed (version : JsonValue).

Record FileSystem : Type := mkFileSystem {
  existsSync : Path -> bool;
  readFileSync : Path -> FileRead;
  readJsonFile : Path -> JsonRead;
  writeFileSync : Path -> string -> option string   (* [Some error] when the write throws *)
}.
(* The only file the executors write is [Dockerfile] in the output directory,
   which they never read back: the reads do not depend on the writes. *)

Definition jsonTruthy (v : JsonValue) : bool :=
  match v with
  | JsonAbsent | JsonNull => false
  | JsonBool b => b
  | JsonNumber q => negb (Qeq_bool q 0)
  | JsonString s => negb (s =? "")
  | JsonCompound => true
  end.

(** ** Regular expressions

    The fragment of ECMAScript regular expressions used by the executor, with
    the backtracking semantics of the language: quantifiers are greedy and
    give characters back, the search tries each start index from the left. *)

Module Regex.

Inductive Node : Type :=
| LineStart                        (* [^] under the [m] flag *)
| LineEnd                          (* [$] under the [m] flag *)
| Chr (c : ascii)                  (* a literal character *)
| Class (p : ascii -> bool)        (* one character of a class *)
| Star (p : ascii -> bool)         (* [p*], greedy *)
| Group (p : ascii -> bool).       (* [(p+)], greedy and capturing *)

Definition isLineTerminator (c : ascii) : bool :=
  let n := nat_of_ascii c in ((n =? 10) || (n =? 13))%nat.

(** [\s] on code units below 256: TAB, LF, VT, FF, CR, SP and NBSP. *)
Definition isSpace (c : ascii) : bool :=
  let n := nat_of_ascii c in
  (((9 <=? n) && (n <=? 13)) || (n =? 32) || (n =? 160))%nat.

Definition atLineStart (prev : option ascii) : bool :=
  match prev with
  | None => true
  | Some c => isLineTerminator c
  end.

Definition atLineEnd (s : string) : bool :=
  match s with
  | EmptyString => true
  | String c _ => isLineTerminator c
  end.

(** [p*] followed by the continuation [k]: the longest run first, then one
    character less at a time. *)
Fixpoint star {R : Type} (p : ascii -> bool)
         (k : option ascii -> string -> option R)
         (prev : option ascii) (s : string) {struct s} : option R :=
  match s with
  | String d s' =>
      if p d then
        match star p k (Some d) s' with
        | Some res => Some res
        | None => k prev s
        end
      else k prev s
  | EmptyString => k prev s
  end.

(** [(p+)] followed by the continuation [k], which receives the text of the
    group; [acc] is the text consumed so far. *)
Fixpoint plus {R : Type} (p : ascii -> bool)
         (k : string -> option ascii -> string -> option R)
         (acc : string) (s : string) {struct s} : option R :=
  match s with
  | String d s' =>
      if p d then
        let acc' := acc ++ String d EmptyString in
        match plus p k acc' s' with
        | Some res => Some res
        | None => k acc' (Some d) s'
        end
      else None
  | EmptyString => None
  end.

(** [exec r prev s cap] matches the nodes [r] against [s], where [prev] is
    the character before [s] and [cap] the capture so far; the result is
    the capture of the first successful alternative. *)
Fixpoint exec (r : list Node) (prev : option ascii) (s : string)
         (cap : option string) {struct r} : option (option string) :=
  match r with
  | [] => Some cap
  | LineStart :: r' => if atLineStart prev then exec r' prev s cap else None
  | LineEnd :: r' => if atLineEnd s then exec r' prev s cap else None
  | Chr c :: r' =>
      match s with
      | String d s' => if (c =? d)%char then exec r' (Some d) s' cap else None
      | EmptyString => None
      end
  | Class p :: r' =>
      match s with
      | String d s' => if p d then exec r' (Some d) s' cap else None
      | EmptyString => None
      end
  | Star p :: r' => star p (fun prev s => exec r' prev s cap) prev s
  | Group p :: r' => plus p (fun acc prev s => exec r' prev s (Some acc)) EmptyString s
  end.

(** The attempt at each start index, from the left. *)
Fixpoint search (r : list Node) (prev : option ascii) (s : string)
  : option (option string) :=
  match exec r prev s None with
  | Some res => Some res
  | None =>
      match s with
      | String c s' => search r (Some c) s'
      | EmptyString => None
      end
  end.

(** Every character of [s] satisfies [p]. *)
Fixpoint allChars (p : ascii -> bool) (s : string) : bool :=
  match s with
  | EmptyString => true
  | String c s' => p c && allChars p s'
  end.

(** The last character of [s], or [prev] when [s] is empty. *)
Fixpoint lastChar (prev : option ascii) (s : string) : option ascii :=
  match s with
  | EmptyString => prev
  | String c s' => lastChar (Some c) s'
  end.

(** [s] is empty or starts with a character outside [p]. *)
Definition stops (p : ascii -> bool) (s : string) : bool :=
  match s with
  | EmptyString => true
  | String c _ => negb (p c)
  end.

(** The attempt at start index [i] alone. *)
Fixpoint attempt (r : list Node) (prev : option ascii) (s : string) (i : nat)
         {struct i} : option (option string) :=
  match i with
  | O => exec r prev s None
  | S i' =>
      match s with
      | String c s' => attempt r (Some c) s' i'
      | EmptyString => None
      end
  end.

(** [s.match(r)]: the capture groups of the leftmost match, if any. *)
Definition matchOf (r : list Node) (s : string) : option (option string) :=
  search r None s.

Definition literal (s : string) : list Node :=
  map Chr (list_ascii_of_string s).

End Regex.

(** ** Container flags *)

(** Modelled from the spec: [utils/get-container-flags] (the [ContainerFlags]
    interface and [getContainerFlags]) is not among the sources. The
    specification of the container flag assembler gives one flag subset per
    container, carrying an explicit container identifier exactly when the
    boolean argument says so, and omitting every absent optional field; the
    fields and their flags are left open, so they are the members of a
    class. *)
Class ContainerModel : Type := {
  ContainerFlags : Type;
  (** the flag that names the container *)
  identifierFlag : ContainerFlags -> string;
  (** the flags of the container's shape fields that are present *)
  shapeFlags : ContainerFlags -> list string;
  (** recognises a container-identifier flag among the tokens *)
  isIdentifier : string -> bool;
  (** the container specification with every field absent *)
  unset : ContainerFlags
}.

(** Modelled from the spec: see [ContainerModel]. *)
Definition getContainerFlags `{ContainerModel}
           (options : ContainerFlags) (named : bool) : list string :=
  ((if named then [identifierFlag options] else []) ++ shapeFlags options)%list.

(** What the specification says of the members of a [ContainerModel]. *)
Record ContainerLaws (M : ContainerModel) : Prop := {
  identifier_recognised : forall c, isIdentifier (identifierFlag c) = true;
  shape_unqualified : forall c t, In t (shapeFlags c) -> isIdentifier t = false;
  empty_unqualified : isIdentifier "" = false;
  unset_shape : shapeFlags unset = []
}.

(** ** The executor built on [yargs-unparser] *)

Module Deploy.
Section WithContainers.

Context {M : ContainerModel}.

Inductive ManifestType : Type := node | python.
Inductive ExecutionEnvironment : Type := gen1 | gen2.
Inductive VpcEgress : Type := allTraffic | privateRangesOnly.

Definition showExecutionEnvironment (e : ExecutionEnvironment) : string :=
  match e with gen1 => "gen1" | gen2 => "gen2" end.

Definition showVpcEgress (e : VpcEgress) : string :=
  match e with
  | allTraffic => "all-traffic"
  | privateRangesOnly => "private-ranges-only"
  end.

(** [ExecutorSchema extends ContainerFlags]: the inherited members are the
    field [container]. *)
Record ExecutorSchema : Type := mkExecutorSchema {
  container : ContainerFlags;
  name : option string;
  buildTarget : option string;
  dockerFile : option string;
  project : string;
  tag : option string;
  region : string;
  allowUnauthenticated : option bool;
  concurrency : option Js.Number;
  maxInstances : option Js.Number;
  minInstances : option Js.Number;
  cloudSqlInstance : option string;
  logsDir : option string;
  serviceAccount : option string;
  tagWithVersion : option bool;
  manifestType : option ManifestType;
  revisionSuffix : option string;
  noTraffic : option bool;
  timeout : option Js.Number;
  cpuBoost : option bool;
  ingress : option string;
  executionEnvironment : option ExecutionEnvironment;
  vpcConnector : option string;
  vpcEgress : option VpcEgress;
  volumeName : option string;
  sidecars : option (list ContainerFlags);
  dryRun : option bool
}.

Record ExecutorContext : Type := mkExecutorContext {
  root : string;                               (* context.root *)
  projectName : option string;
  projects : list (string * string)            (* project name and its root *)
}.

(** The functions imported from [@nx-extend/core]. *)
Record Core : Type := mkCore {
  getOutputDirectoryFromBuildTarget : ExecutorContext -> string -> option string;
  execCommand : string -> option bool -> bool
}.

Fixpoint projectRoot (key : string) (ps : list (string * string)) : option string :=
  match ps with
  | [] => None
  | (k, r) :: rest => if k =? key then Some r else projectRoot key rest
  end.

(** [o || fallback] *)
Definition orElse (o : option string) (fallback : string) : string :=
  match o with
  | Some s => if Js.nonEmpty s then s else fallback
  | None => fallback
  end.

(** [Boolean(o)] *)
Definition present (o : option string) : bool :=
  match o with
  | Some s => Js.nonEmpty s
  | None => false
  end.

(** [field = fallback] in a destructuring pattern *)
Definition defaultTo {A} (o : option A) (fallback : A) : A :=
  match o with Some a => a | None => fallback end.

Definition isQuote (c : ascii) : bool :=
  ((c =? Js.dquote) || (c =? "'"))%char.

(** The pattern of line 126, [/^\s*version\s*=\s*Q(N+)Q\s*$/m], where [Q] is
    the class of the two quote characters and [N] its complement. *)
Definition versionPattern : list Regex.Node :=
  ([Regex.LineStart; Regex.Star Regex.isSpace]
     ++ Regex.literal "version"
     ++ [Regex.Star Regex.isSpace; Regex.Chr "=";
         Regex.Star Regex.isSpace; Regex.Class isQuote;
         Regex.Group (fun c => negb (isQuote c)); Regex.Class isQuote;
         Regex.Star Regex.isSpace; Regex.LineEnd])%list.

(** [`v${version.replace(/\./g, '-')}`] *)
Definition versionTag (version : string) : string :=
  "v" ++ Js.replaceDots version.

(** The [manifestType === 'node'] branch. *)
Definition nodeVersion (fs : FileSystem) (packageJsonPath : Path)
  : Exec (option string) :=
  (if existsSync fs packageJsonPath then
     match readJsonFile fs packageJsonPath with
     | JsonThrows e => throw (Raised e)
     | JsonParsed version =>
         if jsonTruthy version then
           match version with
           | JsonString v =>
               emit (LogInfo ("Using package.json version: " ++ v)) ;;
               ret (Some (versionTag v))
           | _ => throw (TypeError "packageJson.version.replace is not a function")
           end
         else ret None
     end
   else
     emit (LogWarn "tagWithVersion is enabled but package.json not found") ;;
     ret None)%exec.

(** The [manifestType === 'python'] branch. *)
Definition pythonVersion (fs : FileSystem) (pyprojectPath : Path)
  : Exec (option string) :=
  (if existsSync fs pyprojectPath then
     match readFileSync fs pyprojectPath with
     | ReadThrows error =>
         emit (LogWarn ("Failed to parse pyproject.toml: " ++ error)) ;;
         ret None
     | ReadOk pyprojectContent =>
         match Regex.matchOf versionPattern pyprojectContent with
         | Some (Some v) =>
             emit (LogInfo ("Using pyproject.toml version: " ++ v)) ;;
             ret (Some (versionTag v))
         | Some None =>
             emit (LogWarn ("Failed to parse pyproject.toml: "
                              ++ "TypeError: Cannot read properties of undefined")) ;;
             ret None
         | None =>
             emit (LogWarn "pyproject.toml found but no version field detected") ;;
             ret None
         end
     end
   else
     emit (LogWarn "tagWithVersion is enabled but pyproject.toml not found") ;;
     ret None)%exec.

(** Lines 102 to 141: the value of [packageVersion]. *)
Definition resolveVersion (options : ExecutorSchema) (context : ExecutorContext)
           (projRoot : string) (fs : FileSystem) : Exec (option string) :=
  if defaultTo (tagWithVersion options) false then
    match defaultTo (manifestType options) node with
    | node => nodeVersion fs [root context; projRoot; "package.json"]
    | python => pythonVersion fs [root context; projRoot; "pyproject.toml"]
    end
  else ret None.

(** [getOutputDirectoryFromBuildTarget(context, buildTarget)] with
    [buildTarget = options.buildTarget || `${context.projectName}:build`]. *)
Definition outputDirectory (core : Core) (options : ExecutorSchema)
           (context : ExecutorContext) : option string :=
  getOutputDirectoryFromBuildTarget core context
    (orElse (buildTarget options) (Js.template (projectName context) ++ ":build")).

(** [name = context.projectName] in the destructuring pattern. *)
Definition deploymentName (options : ExecutorSchema) (context : ExecutorContext)
  : option string :=
  match name options with
  | Some n => Some n
  | None => projectName context
  end.

Definition gcloudDeploy (options : ExecutorSchema) : string :=
  if present (volumeName options) then "gcloud beta run deploy"
  else "gcloud run deploy".

(** The object literal [args]. *)
Definition args (options : ExecutorSchema) (name : string)
           (packageVersion : option string) : Yargs.Argv :=
  let tagWithVersion := defaultTo (tagWithVersion options) false in
  let allowUnauthenticated := defaultTo (allowUnauthenticated options) true in
  let packageVersion :=
    match packageVersion with Some v => Js.str v | None => Js.null end in
  Yargs.mkArgv [name]
    [ ("project", Js.str (project options));
      ("platform", Js.str "managed");
      ("quiet", Js.bool true);
      ("region", Js.str (region options));
      ("min-instances", Js.ofNumber (minInstances options));
      ("max-instances", Js.ofNumber (maxInstances options));
      ("concurrency", Js.ofNumber (concurrency options));
      ("execution-environment",
        Js.ofString (option_map showExecutionEnvironment (executionEnvironment options)));
      ("vpc-connector", Js.ofString (vpcConnector options));
      ("vpc-egress", Js.ofString (option_map showVpcEgress (vpcEgress options)));
      ("ingress", Js.ofString (ingress options));
      ("revision-suffix", Js.coalesce (Js.ofString (revisionSuffix options)) Js.undefined);
      ("service-account", Js.ofString (serviceAccount options));
      ("timeout", Js.ofNumber (timeout options));
      ("add-cloudsql-instances", Js.ofString (cloudSqlInstance options));
      ("tag", Js.coalesce (Js.and (Js.bool tagWithVersion) packageVersion) Js.undefined);
      ("cpu-boost", Js.ofBool (cpuBoost options));
      ("no-traffic", Js.coalesce (Js.ofBool (noTraffic options)) Js.undefined);
      ("allow-unauthenticated", Js.coalesce (Js.bool allowUnauthenticated) Js.undefined);
      ("add-volume",
        if present (volumeName options)
        then Js.str ("name=" ++ Js.template (volumeName options))
        else Js.undefined) ].

Definition baseFlags (options : ExecutorSchema) (name : string)
           (packageVersion : option string) : list string :=
  Yargs.yargsUnparser (args options name packageVersion).

Definition containerFlags (options : ExecutorSchema) : list string :=
  let sidecars := defaultTo (sidecars options) [] in
  getContainerFlags (container options) (0 <? List.length sidecars)%nat.

Definition sidecarFlags (options : ExecutorSchema) : list string :=
  let sidecars := defaultTo (sidecars options) [] in
  flat_map (fun sidecarOptions => getContainerFlags sidecarOptions true) sidecars.

Definition commandParts (options : ExecutorSchema) (name : string)
           (packageVersion : option string) : list string :=
  filter Js.nonEmpty
         ([gcloudDeploy options]
            ++ baseFlags options name packageVersion
            ++ containerFlags options
            ++ sidecarFlags options)%list.

Definition fullCommand (options : ExecutorSchema) (name : string)
           (packageVersion : option string) : string :=
  Js.join " " (commandParts options name packageVersion).

Definition deployExecutor (core : Core) (fs : FileSystem)
           (options : ExecutorSchema) (context : ExecutorContext) : Exec bool :=
  (projRoot <-
     match projectRoot (Js.template (projectName context)) (projects context) with
     | Some r => ret r
     | None => throw (TypeError "Cannot destructure property 'root'")
     end ;;
   let outputDirectory := outputDirectory core options context in
   if negb (present outputDirectory) then
     throw (Error ("Build target has no " ++ Js.quoted "outputPath" ++ " configured!"))
   else
     let name := deploymentName options context in
     if negb (present name) then
       throw (Error "Project name is required (name)")
     else
       let name := Js.template name in
       let distDirectory := [root context; Js.template outputDirectory] in
       (if present (dockerFile options) then
          match readFileSync fs [root context; Js.template (dockerFile options)] with
          | ReadThrows e => throw (Raised e)
          | ReadOk dockerFile =>
              let target := (distDirectory ++ ["Dockerfile"])%list in
              match writeFileSync fs target dockerFile with
              | Some e => throw (Raised e)
              | None => emit (FileWritten target dockerFile)
              end
          end
        else ret tt) ;;
       packageVersion <- resolveVersion options context projRoot fs ;;
       (if present (volumeName options) then
          emit (LogWarn ("Volumes are still in beta, using "
                           ++ Js.quoted "gcloud beta" ++ " to deploy."
                           ++ String (ascii_of_nat 10) ""))
        else ret tt) ;;
       let command := fullCommand options name packageVersion in
       emit (Executed command None (dryRun options)) ;;
       ret (execCommand core command (dryRun options)))%exec.

(** *** Vocabulary of the properties *)

(** The optional members of the schema that feed a key of [args]. *)
Inductive OptionalField : Type :=
| MinInstances | MaxInstances | Concurrency | ExecutionEnv | VpcConnector
| VpcEgressSetting | Ingress | RevisionSuffix | ServiceAccount | Timeout
| CloudSqlInstance | TagWithVersion | CpuBoost | NoTraffic
| AllowUnauthenticated | VolumeName.

(** The key of [args] fed by the member. *)
Definition flagOf (f : OptionalField) : string :=
  match f with
  | MinInstances => "min-instances"
  | MaxInstances => "max-instances"
  | Concurrency => "concurrency"
  | ExecutionEnv => "execution-environment"
  | VpcConnector => "vpc-connector"
  | VpcEgressSetting => "vpc-egress"
  | Ingress => "ingress"
  | RevisionSuffix => "revision-suffix"
  | ServiceAccount => "service-account"
  | Timeout => "timeout"
  | CloudSqlInstance => "add-cloudsql-instances"
  | TagWithVersion => "tag"
  | CpuBoost => "cpu-boost"
  | NoTraffic => "no-traffic"
  | AllowUnauthenticated => "allow-unauthenticated"
  | VolumeName => "add-volume"
  end.

Definition isNone {A} (o : option A) : bool :=
  match o with None => true | Some _ => false end.

(** The member is absent from the configuration. *)
Definition omitted (f : OptionalField) (options : ExecutorSchema) : bool :=
  match f with
  | MinInstances => isNone (minInstances options)
  | MaxInstances => isNone (maxInstances options)
  | Concurrency => isNone (concurrency options)
  | ExecutionEnv => isNone (executionEnvironment options)
  | VpcConnector => isNone (vpcConnector options)
  | VpcEgressSetting => isNone (vpcEgress options)
  | Ingress => isNone (ingress options)
  | RevisionSuffix => isNone (revisionSuffix options)
  | ServiceAccount => isNone (serviceAccount options)
  | Timeout => isNone (timeout options)
  | CloudSqlInstance => isNone (cloudSqlInstance options)
  | TagWithVersion => isNone (tagWithVersion options)
  | CpuBoost => isNone (cpuBoost options)
  | NoTraffic => isNone (noTraffic options)
  | AllowUnauthenticated => isNone (allowUnauthenticated options)
  | VolumeName => isNone (volumeName options)
  end.

(** No token of the sequence is the flag of [key] or its negation. *)
Definition flagFree (key : string) (tokens : list string) : Prop :=
  ~ In ("--" ++ key) tokens /\ ~ In ("--no-" ++ key) tokens.

(** The tokens that the key [tag] of [args] contributes. *)
Definition tagTokens (options : ExecutorSchema) (packageVersion : option string)
  : list string :=
  match Yargs.lookup "tag" (Yargs.options (args options "" packageVersion)) with
  | Some v => Yargs.unparseOption "tag" v
  | None => []
  end.

(** The configuration with the members that the properties vary. *)
Definition withSettings (options : ExecutorSchema)
           (allowUnauthenticated' tagWithVersion' : option bool)
           (manifestType' : option ManifestType) (volumeName' : option string)
           (sidecars' : option (list ContainerFlags)) : ExecutorSchema :=
  {| container := container options;
     name := name options;
     buildTarget := buildTarget options;
     dockerFile := dockerFile options;
     project := project options;
     tag := tag options;
     region := region options;
     allowUnauthenticated := allowUnauthenticated';
     concurrency := concurrency options;
     maxInstances := maxInstances options;
     minInstances := minInstances options;
     cloudSqlInstance := cloudSqlInstance options;
     logsDir := logsDir options;
     serviceAccount := serviceAccount options;
     tagWithVersion := tagWithVersion';
     manifestType := manifestType';
     revisionSuffix := revisionSuffix options;
     noTraffic := noTraffic options;
     timeout := timeout options;
     cpuBoost := cpuBoost options;
     ingress := ingress options;
     executionEnvironment := executionEnvironment options;
     vpcConnector := vpcConnector options;
     vpcEgress := vpcEgress options;
     volumeName := volumeName';
     sidecars := sidecars';
     dryRun := dryRun options |}.

(** The configuration without its volume descriptor. *)
Definition withoutVolume (options : ExecutorSchema) : ExecutorSchema :=
  withSettings options (allowUnauthenticated options) (tagWithVersion options)
               (manifestType options) None (sidecars options).

(** The tokens that the volume descriptor adds to the flags. *)
Definition volumeTokens (options : ExecutorSchema) : list string :=
  if present (volumeName options)
  then ["--add-volume"; "name=" ++ Js.template (volumeName options)]
  else [].

(** [{name: "svc", project: "p1", region: "us-central1",
      allowUnauthenticated: true}], no sidecars. *)
Definition example : ExecutorSchema :=
  {| container := unset;
     name := Some "svc";
     buildTarget := None;
     dockerFile := None;
     project := "p1";
     tag := None;
     region := "us-central1";
     allowUnauthenticated := Some true;
     concurrency := None;
     maxInstances := None;
     minInstances := None;
     cloudSqlInstance := None;
     logsDir := None;
     serviceAccount := None;
     tagWithVersion := None;
     manifestType := None;
     revisionSuffix := None;
     noTraffic := None;
     timeout := None;
     cpuBoost := None;
     ingress := None;
     executionEnvironment := None;
     vpcConnector := None;
     vpcEgress := None;
     volumeName := None;
     sidecars := None;
     dryRun := None |}.

(** [line] reads [version = Q v Q] with either quote character for each [Q]
    and any white space around the words. *)
Definition versionLine (v line : string) : Prop :=
  exists ws1 ws2 ws3 ws4 q1 q2,
    Regex.allChars Regex.isSpace ws1 = true /\
    Regex.allChars Regex.isSpace ws2 = true /\
    Regex.allChars Regex.isSpace ws3 = true /\
    Regex.allChars Regex.isSpace ws4 = true /\
    isQuote q1 = true /\ isQuote q2 = true /\
    line = ws1 ++ "version" ++ ws2 ++ "=" ++ ws3
               ++ String q1 (v ++ String q2 ws4).

(** [content] holds a full line that reads [version = Q v Q]. *)
Definition containsVersionLine (v content : string) : Prop :=
  exists before line after,
    content = before ++ line ++ after /\
    versionLine v line /\
    Regex.atLineStart (Regex.lastChar None before) = true /\
    Regex.atLineEnd after = true.

(** The members whose absence leaves the key of [args] undefined by design:
    [allowUnauthenticated] defaults to [true]; [tagWithVersion] is set apart. *)
Definition plainlyOptional (f : OptionalField) : bool :=
  match f with
  | AllowUnauthenticated | TagWithVersion => false
  | _ => true
  end.

End WithContainers.
End Deploy.

(** ** The executor built on [buildCommand] *)

Module Legacy.

(** The members of [ExecutorSchema] ([../schema]) that the executor reads. *)
Record ExecutorSchema : Type := mkExecutorSchema {
  region : string;
  project : string;
  name : option string;
  allowUnauthenticated : option bool;
  envVars : option (list (string * string));   (* in [Object.keys] order *)
  concurrency : option Js.Number;
  maxInstances : option Js.Number;
  minInstances : option Js.Number;
  memory : option string;
  cloudSqlInstance : option string;
  http2 : option bool;
  serviceAccount : option string;
  logsDir : option string;
  tagWithVersion : option bool;
  noTraffic : option bool;
  secrets : option (list string);
  revisionSuffix : option string;
  buildWith : option string;
  autoCreateArtifactsRepo : option bool;
  generateRepoInfoFile : option bool;
  timeout : option Js.Number;
  dockerFile : option string
}.

Record ProjectConfiguration : Type := mkProjectConfiguration {
  projRoot : string;                       (* root *)
  sourceRoot : option string;
  outputPath : option string               (* targets?.build?.options?.outputPath *)
}.

Record ExecutorContext : Type := mkExecutorContext {
  root : string;
  projectName : option string;
  projects : list (string * ProjectConfiguration)    (* workspace.projects *)
}.

(** [execCommand] of [@nx-extend/core]: the success flag of a run. *)
Definition ExecCommand : Type := string -> option Path -> bool.

Fixpoint projectOf (key : string) (ps : list (string * ProjectConfiguration))
  : option ProjectConfiguration :=
  match ps with
  | [] => None
  | (k, p) :: rest => if k =? key then Some p else projectOf key rest
  end.

(** Modelled from the spec: [buildCommand] of [@nx-extend/core] is not among
    the sources. The entries that are present are joined with single spaces
    into one command string; an entry that is absent (falsy) is omitted. *)
Definition buildCommand (parts : list Js.value) : string :=
  Js.join " " (map Js.toString (filter Js.truthy parts)).

(** [field = fallback] in the destructuring pattern, as a value. *)
Definition stringOr (o : option string) (fallback : Js.value) : Js.value :=
  match o with Some s => Js.str s | None => fallback end.

Definition numberOr (o : option Js.Number) (fallback : Js.value) : Js.value :=
  match o with Some n => Js.number n | None => fallback end.

Definition boolOr (o : option bool) (fallback : bool) : bool :=
  match o with Some b => b | None => fallback end.

Definition validSecret (secret : string) : bool :=
  Js.includes "=" secret && Js.includes ":" secret.

Definition invalidSecretWarning (secret : string) : string :=
  Js.quoted secret
    ++ " is not a valid secret! It should be in the following format "
    ++ Js.quoted "ENV_VAR_NAME=SECRET:VERSION".

(** [secrets.map(...)], with the warnings it logs. *)
Fixpoint mapSecrets (secrets : list string) : Exec (list Js.value) :=
  match secrets with
  | [] => ret []
  | secret :: rest =>
      (v <- (if validSecret secret then ret (Js.str secret)
             else emit (LogWarn (invalidSecretWarning secret)) ;;
                  ret (Js.bool false)) ;;
       vs <- mapSecrets rest ;;
       ret (v :: vs))%exec
  end.

(** [secrets.map(...).filter(Boolean)] *)
Definition validSecrets (secrets : list string) : Exec (list Js.value) :=
  (mapped <- mapSecrets secrets ;; ret (filter Js.truthy mapped))%exec.

Definition setEnvVars (envVars : list (string * string)) : list string :=
  map (fun kv => fst kv ++ "=" ++ snd kv) envVars.

Definition gcloudCommand (validSecrets : list Js.value) : string :=
  if (0 <? List.length validSecrets)%nat then "gcloud beta" else "gcloud".

Definition packageVersion (fs : FileSystem) (tagWithVersion : bool)
           (packageJsonLocation : Path) : Exec Js.value :=
  if tagWithVersion then
    if existsSync fs packageJsonLocation then
      match readJsonFile fs packageJsonLocation with
      | JsonThrows e => throw (Raised e)
      | JsonParsed version =>
          if jsonTruthy version then
            match version with
            | JsonString v => ret (Js.str ("v" ++ Js.replaceDots v))
            | _ => throw (TypeError "packageJson.version.replace is not a function")
            end
          else ret Js.null
      end
    else ret Js.null
  else ret Js.null.

(** The array handed to [buildCommand] for the deployment. *)
Definition deployParts (options : ExecutorSchema) (name : Js.value)
           (packageVersion : Js.value) (validSecrets : list Js.value)
  : list Js.value :=
  let buildWithArtifactRegistry :=
    match buildWith options with
    | Some b => b =? "artifact-registry"
    | None => true
    end in
  let containerName :=
    "gcr.io/" ++ project options ++ "/" ++ Js.toString name in
  let memory := stringOr (memory options) (Js.str "128Mi") in
  let minInstances := numberOr (minInstances options) (Js.number (Js.numeral 0 eq_refl)) in
  let maxInstances := numberOr (maxInstances options) (Js.number (Js.numeral 10 eq_refl)) in
  let concurrency := numberOr (concurrency options) (Js.number (Js.numeral 250 eq_refl)) in
  let revisionSuffix := stringOr (revisionSuffix options) (Js.bool false) in
  let serviceAccount := stringOr (serviceAccount options) Js.null in
  let http2 := Js.bool (boolOr (http2 options) false) in
  let noTraffic := Js.bool (boolOr (noTraffic options) false) in
  let timeout := numberOr (timeout options) Js.null in
  let setEnvVars := setEnvVars (Deploy.defaultTo (envVars options) []) in
  let cloudSqlInstance := stringOr (cloudSqlInstance options) Js.null in
  let allowUnauthenticated := Js.bool (boolOr (allowUnauthenticated options) true) in
  let tagWithVersion := Js.bool (boolOr (tagWithVersion options) false) in
  let autoCreateArtifactsRepo := Js.bool (boolOr (autoCreateArtifactsRepo options) true) in
  [ Js.str (gcloudCommand validSecrets ++ " run deploy " ++ Js.toString name);
    Js.and (Js.bool (negb buildWithArtifactRegistry)) (Js.str ("--image=" ++ containerName));
    Js.and (Js.bool buildWithArtifactRegistry) (Js.str "--source=./");
    Js.str ("--project=" ++ project options);
    Js.str "--platform=managed";
    Js.str ("--memory=" ++ Js.toString memory);
    Js.str ("--region=" ++ region options);
    Js.str ("--min-instances=" ++ Js.toString minInstances);
    Js.str ("--max-instances=" ++ Js.toString maxInstances);
    Js.str ("--concurrency=" ++ Js.toString concurrency);
    Js.and revisionSuffix (Js.str ("--revision-suffix=" ++ Js.toString revisionSuffix));
    Js.and serviceAccount (Js.str ("--service-account=" ++ Js.toString serviceAccount));
    Js.and http2 (Js.str "--use-http2");
    Js.and noTraffic (Js.str "--no-traffic");
    Js.and timeout (Js.str ("--timeout=" ++ Js.toString timeout));
    Js.and (Js.bool (0 <? List.length setEnvVars)%nat)
           (Js.str ("--set-env-vars=" ++ Js.join "," setEnvVars));
    Js.and cloudSqlInstance
           (Js.str ("--add-cloudsql-instances=" ++ Js.toString cloudSqlInstance));
    Js.and allowUnauthenticated (Js.str "--allow-unauthenticated");
    Js.and (Js.and tagWithVersion packageVersion)
           (Js.str ("--tag=" ++ Js.toString packageVersion));
    Js.and (Js.bool (0 <? List.length validSecrets)%nat)
           (Js.str ("--set-secrets=" ++ Js.join "," (map Js.toString validSecrets)));
    Js.and (Js.and (Js.bool buildWithArtifactRegistry) autoCreateArtifactsRepo)
           (Js.str "--quiet") ].

Definition deployExecutor (execCommand : ExecCommand) (fs : FileSystem)
           (options : ExecutorSchema) (context : ExecutorContext) : Exec bool :=
  (proj <-
     match projectOf (Js.template (projectName context)) (projects context) with
     | Some p => ret p
     | None => throw (TypeError "Cannot destructure property 'root'")
     end ;;
   if negb (Deploy.present (outputPath proj)) then
     throw (Error "No build target configured!")
   else
     let name :=
       match name options with
       | Some n => Js.str n
       | None => Js.ofString (projectName context)
       end in
     let logsDir := stringOr (logsDir options) (Js.bool false) in
     let distDirectory := [root context; Js.template (outputPath proj)] in
     let buildWithArtifactRegistry :=
       match buildWith options with
       | Some b => b =? "artifact-registry"
       | None => true
       end in
     let containerName :=
       "gcr.io/" ++ project options ++ "/" ++ Js.toString name in
     (if Deploy.present (dockerFile options) then
        match readFileSync fs [root context; Js.template (dockerFile options)] with
        | ReadThrows e => throw (Raised e)
        | ReadOk dockerFile =>
            let target := (distDirectory ++ ["Dockerfile"])%list in
            match writeFileSync fs target dockerFile with
            | Some e => throw (Raised e)
            | None => emit (FileWritten target dockerFile)
            end
        end
      else ret tt) ;;
     (if negb buildWithArtifactRegistry then
        let buildSubmitCommand :=
          buildCommand
            [ Js.str "gcloud builds submit";
              Js.str ("--tag=" ++ containerName);
              Js.str ("--project=" ++ project options);
              if Js.truthy logsDir
              then Js.str ("--gcs-log-dir=" ++ Js.toString logsDir)
              else Js.bool false ] in
        emit (Executed buildSubmitCommand (Some distDirectory) None) ;;
        if execCommand buildSubmitCommand (Some distDirectory) then ret tt
        else throw (Error "Failed building container!")
      else ret tt) ;;
     packageVersion <-
       packageVersion fs (boolOr (tagWithVersion options) false)
                      [root context; projRoot proj; "package.json"] ;;
     validSecrets <- validSecrets (Deploy.defaultTo (secrets options) []) ;;
     (if boolOr (generateRepoInfoFile options) false then
        emit (LogInfo "Generating repo info file") ;;
        let command :=
          buildCommand
            [ Js.str "gcloud debug source gen-repo-info-file";
              Js.str ("--source-directory=" ++ Js.template (sourceRoot proj));
              Js.str ("--output-directory=" ++ showPath distDirectory) ] in
        emit (Executed command None None)
      else ret tt) ;;
     (if (0 <? List.length validSecrets)%nat then
        emit (LogInfo "Using secrets, use gcloud beta")
      else ret tt) ;;
     let deployCommand :=
       buildCommand (deployParts options name packageVersion validSecrets) in
     emit (Executed deployCommand (Some distDirectory) None) ;;
     ret (execCommand deployCommand (Some distDirectory)))%exec.

(** *** Vocabulary of the properties *)

(** [secret] reads [NAME=SECRET:VERSION]. *)
Definition wellFormedSecret (secret : string) : Prop :=
  exists name' secretName version,
    secret = name' ++ "=" ++ secretName ++ ":" ++ version.

(** The configuration with other secrets. *)
Definition withSecrets (options : ExecutorSchema) (secrets' : option (list string))
  : ExecutorSchema :=
  {| region := region options;
     project := project options;
     name := name options;
     allowUnauthenticated := allowUnauthenticated options;
     envVars := envVars options;
     concurrency := concurrency options;
     maxInstances := maxInstances options;
     minInstances := minInstances options;
     memory := memory options;
     cloudSqlInstance := cloudSqlInstance options;
     http2 := http2 options;
     serviceAccount := serviceAccount options;
     logsDir := logsDir options;
     tagWithVersion := tagWithVersion options;
     noTraffic := noTraffic options;
     secrets := secrets';
     revisionSuffix := revisionSuffix options;
     buildWith := buildWith options;
     autoCreateArtifactsRepo := autoCreateArtifactsRepo options;
     generateRepoInfoFile := generateRepoInfoFile options;
     timeout := timeout options;
     dockerFile := dockerFile options |}.

End Legacy.

(** ** A container model for concrete runs

    Containers with a name, an image and a memory limit, flagged in the way of
    the [gcloud] command line. *)

Module Fixture.

Record Container : Type := mkContainer {
  containerName : string;
  image : option string;
  memory : option string
}.

Definition flag (key : string) (o : option string) : list string :=
  match o with
  | Some v => ["--" ++ key ++ "=" ++ v]
  | None => []
  end.

#[export] Instance model : ContainerModel := {|
  ContainerFlags := Container;
  identifierFlag := fun c => "--container=" ++ containerName c;
  shapeFlags := fun c => (flag "image" (image c) ++ flag "memory" (memory c))%list;
  isIdentifier := prefix "--container=";
  unset := mkContainer "" None None
|}.

Definition svc : Deploy.ExecutorSchema := Deploy.example.

Definition context : Deploy.ExecutorContext :=
  {| Deploy.root := "/workspace";
     Deploy.projectName := Some "api";
     Deploy.projects := [("api", "apps/api")] |}.

Definition core : Deploy.Core :=
  {| Deploy.getOutputDirectoryFromBuildTarget :=
       fun _ target => if target =? "api:build" then Some "dist/apps/api" else None;
     Deploy.execCommand := fun _ _ => true |}.

(** A file system holding the given manifests under [apps/api]. *)
Definition files (packageJson : option JsonRead) (pyproject : option FileRead)
  : FileSystem :=
  {| existsSync := fun p =>
       match p with
       | [_; _; "package.json"] => match packageJson with Some _ => true | None => false end
       | [_; _; "pyproject.toml"] => match pyproject with Some _ => true | None => false end
       | _ => false
       end;
     readFileSync := fun p =>
       match p, pyproject with
       | [_; _; "pyproject.toml"], Some r => r
       | _, _ => ReadThrows "ENOENT: no such file or directory"
       end;
     readJsonFile := fun p =>
       match p, packageJson with
       | [_; _; "package.json"], Some r => r
       | _, _ => JsonThrows "ENOENT: no such file or directory"
       end;
     writeFileSync := fun _ _ => None |}.

(** The example configuration with tagging requested. *)
Definition tagged (manifest : Deploy.ManifestType) : Deploy.ExecutorSchema :=
  Deploy.withSettings svc (Some true) (Some true) (Some manifest) None None.

(** The example configuration without [allowUnauthenticated]. *)
Definition unauthenticatedUnset : Deploy.ExecutorSchema :=
  Deploy.withSettings svc None None None None None.

(** The example configuration with the volume [data]. *)
Definition withVolume : Deploy.ExecutorSchema :=
  Deploy.withSettings svc (Some true) None None (Some "data") None.

(** The example configuration with two sidecars. *)
Definition withSidecars : Deploy.ExecutorSchema :=
  Deploy.withSettings svc (Some true) None None None
    (Some [mkContainer "proxy" (Some "envoy") None;
           mkContainer "agent" (Some "otel") (Some "256Mi")]).

Definition newline : string := String (ascii_of_nat 10) "".

(** A manifest with one version line. *)
Definition pyproject : string :=
  "[project]" ++ newline ++ "name = 'api'" ++ newline
    ++ "version = '0.4.0'" ++ newline.

(** A manifest with two tables, each with a version line. *)
Definition pyprojectTwoTables : string :=
  "[tool.poetry]" ++ newline ++ "version = '1.0.0'" ++ newline
    ++ "[project]" ++ newline ++ "version = '0.4.0'" ++ newline.

Definition manifestPath (file : string) : Path := ["/workspace"; "apps/api"; file].

Definition legacyOptions (secrets : option (list string)) : Legacy.ExecutorSchema :=
  {| Legacy.region := "europe-west1";
     Legacy.project := "p1";
     Legacy.name := Some "svc";
     Legacy.allowUnauthenticated := None;
     Legacy.envVars := None;
     Legacy.concurrency := None;
     Legacy.maxInstances := None;
     Legacy.minInstances := None;
     Legacy.memory := None;
     Legacy.cloudSqlInstance := None;
     Legacy.http2 := None;
     Legacy.serviceAccount := None;
     Legacy.logsDir := None;
     Legacy.tagWithVersion := None;
     Legacy.noTraffic := None;
     Legacy.secrets := secrets;
     Legacy.revisionSuffix := None;
     Legacy.buildWith := None;
     Legacy.autoCreateArtifactsRepo := None;
     Legacy.generateRepoInfoFile := None;
     Legacy.timeout := None;
     Legacy.dockerFile := None |}.

Definition legacyContext : Legacy.ExecutorContext :=
  {| Legacy.root := "/workspace";
     Legacy.projectName := Some "api";
     Legacy.projects :=
       [("api", {| Legacy.projRoot := "apps/api";
                   Legacy.sourceRoot := Some "apps/api/src";
                   Legacy.outputPath := Some "dist/apps/api" |})] |}.

Definition succeed : Legacy.ExecCommand := fun _ _ => true.

End Fixture.

(** ** Further vocabulary *)

(** The files written, in order. *)
Definition written (evs : list Event) : list (Path * string) :=
  flat_map (fun ev => match ev with FileWritten p c => [(p, c)] | _ => [] end) evs.

Section DeployTerms.

Context {M : ContainerModel}.

Import Deploy.

(** The text of the warning of line 145. *)
Definition volumeWarning : string :=
  "Volumes are still in beta, using " ++ Js.quoted "gcloud beta" ++ " to deploy."
    ++ String (ascii_of_nat 10) "".

(** The [number] members of the schema that feed a key of [args]. *)
Definition numericValue (f : OptionalField) (options : ExecutorSchema)
  : option Js.Number :=
  match f with
  | MinInstances => minInstances options
  | MaxInstances => maxInstances options
  | Concurrency => concurrency options
  | Timeout => timeout options
  | _ => None
  end.

(** The [boolean] members of the schema that reach [args] as they are. *)
Definition booleanValue (f : OptionalField) (options : ExecutorSchema) : option bool :=
  match f with
  | CpuBoost => cpuBoost options
  | NoTraffic => noTraffic options
  | AllowUnauthenticated => allowUnauthenticated options
  | _ => None
  end.

(** [join(distDirectory, 'Dockerfile')] *)
Definition dockerfileTarget (core : Core) (options : ExecutorSchema)
           (context : ExecutorContext) : Path :=
  [root context; Js.template (outputDirectory core options context); "Dockerfile"].

(** The name that reaches [args], once the checks have passed. *)
Definition nameToken (options : ExecutorSchema) (context : ExecutorContext) : string :=
  Js.template (deploymentName options context).

End DeployTerms.

Module LegacyTerms.

Import Legacy.

(** [name = context.projectName] in the destructuring pattern. *)
Definition nameOf (options : ExecutorSchema) (context : ExecutorContext) : Js.value :=
  match name options with
  | Some n => Js.str n
  | None => Js.ofString (projectName context)
  end.

(** [buildWith === 'artifact-registry'], with its default. *)
Definition buildWithArtifactRegistry (options : ExecutorSchema) : bool :=
  match buildWith options with
  | Some b => b =? "artifact-registry"
  | None => true
  end.

Definition distDirectory (context : ExecutorContext) (proj : ProjectConfiguration)
  : Path :=
  [root context; Js.template (outputPath proj)].

(** The command of lines 257 to 262. *)
Definition buildSubmitCommand (options : ExecutorSchema) (context : ExecutorContext)
  : string :=
  let logsDir := stringOr (logsDir options) (Js.bool false) in
  buildCommand
    [ Js.str "gcloud builds submit";
      Js.str ("--tag=" ++ "gcr.io/" ++ project options ++ "/"
                ++ Js.toString (nameOf options context));
      Js.str ("--project=" ++ project options);
      if Js.truthy logsDir
      then Js.str ("--gcs-log-dir=" ++ Js.toString logsDir)
      else Js.bool false ].

(** The command of lines 305 to 309. *)
Definition repoInfoCommand (context : ExecutorContext) (proj : ProjectConfiguration)
  : string :=
  buildCommand
    [ Js.str "gcloud debug source gen-repo-info-file";
      Js.str ("--source-directory=" ++ Js.template (sourceRoot proj));
      Js.str ("--output-directory=" ++ showPath (distDirectory context proj)) ].

(** The tokens of the deployment command: the entries that [buildCommand]
    keeps, as strings. *)
Definition deployTokens (options : ExecutorSchema) (name packageVersion : Js.value)
           (validSecrets : list Js.value) : list string :=
  map Js.toString (filter Js.truthy (deployParts options name packageVersion validSecrets)).

(** Lines 246 to 254: the Dockerfile is copied to the output directory. *)
Definition staging (fs : FileSystem) (options : ExecutorSchema)
           (context : ExecutorContext) (proj : ProjectConfiguration) : Exec unit :=
  if Deploy.present (dockerFile options) then
    match readFileSync fs [root context; Js.template (dockerFile options)] with
    | ReadThrows e => throw (Raised e)
    | ReadOk dockerFile =>
        match writeFileSync fs (distDirectory context proj ++ ["Dockerfile"])%list
                            dockerFile with
        | Some e => throw (Raised e)
        | None =>
            emit (FileWritten (distDirectory context proj ++ ["Dockerfile"])%list
                              dockerFile)
        end
    end
  else ret tt.

(** Lines 256 to 271: the container is built unless the artifact registry
    builds it. *)
Definition building (execCommand : ExecCommand) (options : ExecutorSchema)
           (context : ExecutorContext) (proj : ProjectConfiguration) : Exec unit :=
  (if negb (buildWithArtifactRegistry options) then
     emit (Executed (buildSubmitCommand options context)
                    (Some (distDirectory context proj)) None) ;;
     if execCommand (buildSubmitCommand options context)
                    (Some (distDirectory context proj))
     then ret tt
     else throw (Error "Failed building container!")
   else ret tt)%exec.

(** The deployment command for the resolved version and the kept secrets. *)
Definition deployCommand (options : ExecutorSchema) (context : ExecutorContext)
           (packageVersion : Js.value) (validSecrets : list Js.value) : string :=
  buildCommand (deployParts options (nameOf options context) packageVersion validSecrets).

(** Lines 302 to 346: the repository information, then the deployment. *)
Definition finishing (execCommand : ExecCommand) (options : ExecutorSchema)
           (context : ExecutorContext) (proj : ProjectConfiguration)
           (packageVersion : Js.value) (validSecrets : list Js.value) : Exec bool :=
  ((if boolOr (generateRepoInfoFile options) false then
      emit (LogInfo "Generating repo info file") ;;
      emit (Executed (repoInfoCommand context proj) None None)
    else ret tt) ;;
   (if (0 <? List.length validSecrets)%nat then
      emit (LogInfo "Using secrets, use gcloud beta")
    else ret tt) ;;
   emit (Executed (deployCommand options context packageVersion validSecrets)
                  (Some (distDirectory context proj)) None) ;;
   ret (execCommand (deployCommand options context packageVersion validSecrets)
                    (Some (distDirectory context proj))))%exec.

End LegacyTerms.

(** ** More configurations for concrete runs *)

Module Samples.

(** A service scaled to zero, with its switches off, a zero timeout and a
    Dockerfile of its own. *)
Definition scaled (project : string) : @Deploy.ExecutorSchema Fixture.model :=
  {| Deploy.container := @unset Fixture.model;
     Deploy.name := Some "svc";
     Deploy.buildTarget := None;
     Deploy.dockerFile := Some "Dockerfile.prod";
     Deploy.project := project;
     Deploy.tag := None;
     Deploy.region := "us-central1";
     Deploy.allowUnauthenticated := Some false;
     Deploy.concurrency := None;
     Deploy.maxInstances := Some (Js.numeral 3 eq_refl);
     Deploy.minInstances := Some (Js.numeral 0 eq_refl);
     Deploy.cloudSqlInstance := None;
     Deploy.logsDir := None;
     Deploy.serviceAccount := None;
     Deploy.tagWithVersion := None;
     Deploy.manifestType := None;
     Deploy.revisionSuffix := None;
     Deploy.noTraffic := Some false;
     Deploy.timeout := Some (Js.numeral 0 eq_refl);
     Deploy.cpuBoost := Some false;
     Deploy.ingress := None;
     Deploy.executionEnvironment := None;
     Deploy.vpcConnector := None;
     Deploy.vpcEgress := None;
     Deploy.volumeName := None;
     Deploy.sidecars := None;
     Deploy.dryRun := Some true |}.

(** A file system that holds [Dockerfile.prod] at the workspace root. *)
Definition dockerFs : FileSystem :=
  {| existsSync := fun _ => false;
     readFileSync := fun p =>
       match p with
       | [_; "Dockerfile.prod"] => ReadOk "FROM node:20"
       | _ => ReadThrows "ENOENT: no such file or directory"
       end;
     readJsonFile := fun _ => JsonThrows "ENOENT: no such file or directory";
     writeFileSync := fun _ _ => None |}.

(** A service of the earlier executor, built with [gcloud builds submit]. *)
Definition submitted : Legacy.ExecutorSchema :=
  {| Legacy.region := "europe-west1";
     Legacy.project := "p1";
     Legacy.name := Some "svc";
     Legacy.allowUnauthenticated := None;
     Legacy.envVars := None;
     Legacy.concurrency := None;
     Legacy.maxInstances := None;
     Legacy.minInstances := None;
     Legacy.memory := None;
     Legacy.cloudSqlInstance := None;
     Legacy.http2 := None;
     Legacy.serviceAccount := None;
     Legacy.logsDir := None;
     Legacy.tagWithVersion := Some true;
     Legacy.noTraffic := None;
     Legacy.secrets := None;
     Legacy.revisionSuffix := None;
     Legacy.buildWith := Some "docker";
     Legacy.autoCreateArtifactsRepo := None;
     Legacy.generateRepoInfoFile := Some true;
     Legacy.timeout := Some (Js.numeral 30 eq_refl);
     Legacy.dockerFile := None |}.

Definition failing : Legacy.ExecCommand := fun _ _ => false.

Definition apiProject : Legacy.ProjectConfiguration :=
  {| Legacy.projRoot := "apps/api";
     Legacy.sourceRoot := Some "apps/api/src";
     Legacy.outputPath := Some "dist/apps/api" |}.

End Samples.

(** * Properties *)

(** ** Tokens and the execution monad *)

Lemma nonEmpty_true (t : string) : Js.nonEmpty t = true <-> t <> "".
Proof.
  unfold Js.nonEmpty. destruct (String.eqb_spec t ""); simpl; split; congruence.
Qed.

Lemma filter_nonEmpty_In (ts : list string) (t : string) :
  In t (filter Js.nonEmpty ts) -> t <> "".
Proof.
  intros H. apply filter_In in H. destruct H as [_ H]. now apply nonEmpty_true.
Qed.

Lemma outcome_bind {A B} (m : Exec A) (k : A -> Exec B) :
  outcome (bind m k) =
    match outcome m with
    | inl e => inl e
    | inr a => outcome (k a)
    end.
Proof.
  destruct m as [evs [e | a]]; simpl; [reflexivity |].
  unfold outcome. simpl. now destruct (k a).
Qed.

Lemma events_bind {A B} (m : Exec A) (k : A -> Exec B) :
  events (bind m k) =
    match outcome m with
    | inl _ => events m
    | inr a => (events m ++ events (k a))%list
    end.
Proof.
  destruct m as [evs [e | a]]; simpl; [reflexivity |].
  unfold events. simpl. now destruct (k a).
Qed.

Lemma bind_ret {A B} (a : A) (k : A -> Exec B) : bind (ret a) k = k a.
Proof. unfold bind, ret. now destruct (k a). Qed.

Lemma throwsError_bind {A B} (m : Exec A) (k : A -> Exec B) :
  throwsError (bind m k) ->
  throwsError m \/ exists a, outcome m = inr a /\ throwsError (k a).
Proof.
  intros [msg H]. rewrite outcome_bind in H.
  destruct (outcome m) as [e | a] eqn:E.
  - left. exists msg. congruence.
  - right. exists a. split; [reflexivity | now exists msg].
Qed.

Lemma throwsError_ret {A} (a : A) : ~ throwsError (ret a).
Proof. intros [msg H]. discriminate H. Qed.

Lemma throwsError_emit (ev : Event) : ~ throwsError (emit ev).
Proof. intros [msg H]. discriminate H. Qed.


(** ** Strings *)

Lemma append_assoc (s1 s2 s3 : string) : (s1 ++ s2) ++ s3 = s1 ++ (s2 ++ s3).
Proof. induction s1 as [| c s1 IH]; cbn; [reflexivity | now rewrite IH]. Qed.

Lemma append_nil_r (s : string) : s ++ "" = s.
Proof. induction s as [| c s IH]; cbn; [reflexivity | now rewrite IH]. Qed.

(** ** Regular expressions *)

Section RegexProperties.

Import Regex.

Variable R : Type.

Lemma star_run (p : ascii -> bool) (k : option ascii -> string -> option R)
      (ws rest : string) (res : R) :
  allChars p ws = true ->
  stops p rest = true ->
  forall prev,
    k (lastChar prev ws) rest = Some res ->
    star p k prev (ws ++ rest) = Some res.
Proof.
  intros Hws Hrest. induction ws as [| d ws IH]; intros prev Hk.
  - cbn in *. destruct rest as [| c rest']; [exact Hk |].
    cbn in *. apply negb_true_iff in Hrest. now rewrite Hrest.
  - cbn in Hws. apply andb_true_iff in Hws. destruct Hws as [Hd Hws].
    cbn. rewrite Hd. now rewrite (IH Hws (Some d) Hk).
Qed.

Lemma plus_stops (p : ascii -> bool)
      (k : string -> option ascii -> string -> option R) (acc rest : string) :
  stops p rest = true -> plus p k acc rest = None.
Proof.
  destruct rest as [| c rest']; [reflexivity |].
  cbn. intros H. apply negb_true_iff in H. now rewrite H.
Qed.

Lemma plus_run (p : ascii -> bool)
      (k : string -> option ascii -> string -> option R)
      (v rest : string) (res : R) :
  v <> "" ->
  allChars p v = true ->
  stops p rest = true ->
  forall acc,
    k (acc ++ v) (lastChar None v) rest = Some res ->
    plus p k acc (v ++ rest) = Some res.
Proof.
  intros Hne Hv Hrest. induction v as [| d v IH]; [congruence |].
  intros acc Hk.
  cbn in Hv. apply andb_true_iff in Hv. destruct Hv as [Hd Hv].
  cbn [append plus]. rewrite Hd.
  destruct v as [| d' v'].
  - cbn [append]. rewrite (plus_stops p k _ rest Hrest). exact Hk.
  - rewrite (IH ltac:(discriminate) Hv (acc ++ String d "")); [reflexivity |].
    rewrite <- Hk. f_equal.
    now rewrite append_assoc.
Qed.

Lemma search_first (r : list Node) (n : nat) :
  forall (s : string) (prev : option ascii) (res : option string),
    (forall i, (i < n)%nat -> attempt r prev s i = None) ->
    attempt r prev s n = Some res ->
    search r prev s = Some res.
Proof.
  induction n as [| n IH]; intros s prev res Hbefore Hat.
  - cbn in Hat. destruct s; cbn; now rewrite Hat.
  - pose proof (Hbefore 0%nat ltac:(lia)) as H0. cbn in H0.
    destruct s as [| c s']; [discriminate Hat |].
    cbn [search]. rewrite H0.
    apply IH; [| exact Hat].
    intros i Hi. apply (Hbefore (S i)). lia.
Qed.

Lemma attempt_app (r : list Node) (before rest : string) :
  forall prev,
    attempt r prev (before ++ rest) (String.length before)
    = exec r (lastChar prev before) rest None.
Proof.
  induction before as [| c before IH]; intros prev; [reflexivity |].
  cbn. apply IH.
Qed.

End RegexProperties.

Lemma lineTerminator_isSpace (c : ascii) :
  Regex.isLineTerminator c = true -> Regex.isSpace c = true.
Proof.
  unfold Regex.isLineTerminator, Regex.isSpace.
  intros H. apply orb_true_iff in H.
  destruct H as [H | H]; apply Nat.eqb_eq in H; rewrite H; reflexivity.
Qed.

Lemma star_lineEnd_result (cap : option string) (s : string) :
  forall prev res,
    Regex.star Regex.isSpace (fun prev s => Regex.exec [Regex.LineEnd] prev s cap) prev s
    = Some res ->
    res = cap.
Proof.
  induction s as [| c s IH]; intros prev res H.
  - cbn in H. congruence.
  - cbn [Regex.star] in H.
    destruct (Regex.isSpace c).
    + destruct (Regex.star _ _ (Some c) s) eqn:E.
      * inversion H; subst. now apply (IH (Some c)).
      * cbn in H. destruct (Regex.isLineTerminator c); congruence.
    + cbn in H. destruct (Regex.isLineTerminator c); congruence.
Qed.

Lemma star_lineEnd (cap : option string) (ws after : string) :
  Regex.allChars Regex.isSpace ws = true ->
  Regex.atLineEnd after = true ->
  forall prev,
    Regex.star Regex.isSpace (fun prev s => Regex.exec [Regex.LineEnd] prev s cap)
               prev (ws ++ after)
    = Some cap.
Proof.
  intros Hws Hafter. induction ws as [| d ws IH]; intros prev.
  - cbn [append]. destruct after as [| c after']; [reflexivity |].
    cbn in Hafter. cbn [Regex.star].
    rewrite (lineTerminator_isSpace c Hafter).
    destruct (Regex.star _ _ (Some c) after') eqn:E.
    + now rewrite (star_lineEnd_result _ _ _ E).
    + cbn. now rewrite Hafter.
  - cbn in Hws. apply andb_true_iff in Hws. destruct Hws as [Hd Hws].
    cbn [append Regex.star]. rewrite Hd. now rewrite IH.
Qed.

(** ** Regular expressions, read backwards *)

Section RegexInversion.

Import Regex.

Variable R : Type.

Lemma star_inv (p : ascii -> bool) (k : option ascii -> string -> option R)
      (s : string) (res : R) :
  forall prev,
    star p k prev s = Some res ->
    exists ws rest,
      s = ws ++ rest /\ allChars p ws = true
      /\ k (lastChar prev ws) rest = Some res.
Proof.
  induction s as [| d s IH]; intros prev H.
  - exists "", "". now repeat split.
  - cbn [star] in H. destruct (p d) eqn:Hd.
    + destruct (star p k (Some d) s) as [r |] eqn:E.
      * inversion H; subst r.
        destruct (IH _ E) as (ws & rest & -> & Hws & Hk).
        exists (String d ws), rest. cbn. now rewrite Hd, Hws.
      * exists "", (String d s). now repeat split.
    + exists "", (String d s). now repeat split.
Qed.

Lemma plus_inv (p : ascii -> bool)
      (k : string -> option ascii -> string -> option R)
      (s : string) (res : R) :
  forall acc,
    plus p k acc s = Some res ->
    exists v rest,
      s = v ++ rest /\ v <> "" /\ allChars p v = true
      /\ k (acc ++ v) (lastChar None v) rest = Some res.
Proof.
  induction s as [| d s IH]; intros acc H; [discriminate H |].
  cbn [plus] in H. destruct (p d) eqn:Hd; [| discriminate H].
  destruct (plus p k (acc ++ String d "") s) as [r |] eqn:E.
  - inversion H; subst r.
    destruct (IH _ E) as (v & rest & -> & Hne & Hv & Hk).
    exists (String d v), rest. cbn [append allChars lastChar]. rewrite Hd, Hv.
    repeat split; [discriminate |].
    rewrite append_assoc in Hk. cbn [append] in Hk.
    destruct v as [| c v]; [congruence | exact Hk].
  - exists (String d ""), s. cbn. rewrite Hd. repeat split; [discriminate | exact H].
Qed.

Lemma search_inv (r : list Node) (s : string) :
  forall prev res,
    search r prev s = Some res ->
    exists before rest,
      s = before ++ rest
      /\ exec r (lastChar prev before) rest None = Some res.
Proof.
  induction s as [| c s IH]; intros prev res H.
  - cbn in H. destruct (exec r prev "" None) eqn:E; [| discriminate H].
    exists "", "". split; [reflexivity |]. cbn. congruence.
  - cbn [search] in H. destruct (exec r prev (String c s) None) eqn:E.
    + exists "", (String c s). split; [reflexivity |]. cbn. congruence.
    + destruct (IH _ _ H) as (before & rest & -> & Hex).
      now exists (String c before), rest.
Qed.

Lemma search_some (r : list Node) (before rest : string) :
  forall prev res,
    exec r (lastChar prev before) rest None = Some res ->
    exists res', search r prev (before ++ rest) = Some res'.
Proof.
  induction before as [| c before IH]; intros prev res H.
  - cbn [append lastChar] in *. destruct rest; cbn [search]; rewrite H; eauto.
  - cbn [append search].
    destruct (exec r prev (String c (before ++ rest)) None); [eauto |].
    now apply IH with (res := res).
Qed.

End RegexInversion.

Lemma exec_Chr_inv (c : ascii) (r : list Regex.Node) (prev : option ascii)
      (s : string) (cap res : option string) :
  Regex.exec (Regex.Chr c :: r) prev s cap = Some res ->
  exists s', s = String c s' /\ Regex.exec r (Some c) s' cap = Some res.
Proof.
  destruct s as [| d s']; [discriminate |].
  cbn [Regex.exec]. destruct (Ascii.eqb_spec c d) as [<- | _]; [| discriminate].
  intros H. now exists s'.
Qed.

Lemma exec_Class_inv (p : ascii -> bool) (r : list Regex.Node) (prev : option ascii)
      (s : string) (cap res : option string) :
  Regex.exec (Regex.Class p :: r) prev s cap = Some res ->
  exists d s', s = String d s' /\ p d = true /\ Regex.exec r (Some d) s' cap = Some res.
Proof.
  destruct s as [| d s']; [discriminate |].
  cbn [Regex.exec]. destruct (p d) eqn:Hd; [| discriminate].
  intros H. now exists d, s'.
Qed.

(** ** The executor built on [yargs-unparser] *)

Section DeployProperties.

Context {M : ContainerModel}.

Import Deploy.

Lemma commandParts_split (options : ExecutorSchema) (name : string)
      (packageVersion : option string) :
  commandParts options name packageVersion =
    (filter Js.nonEmpty (gcloudDeploy options :: baseFlags options name packageVersion)
       ++ filter Js.nonEmpty (containerFlags options)
       ++ filter Js.nonEmpty (sidecarFlags options))%list.
Proof.
  unfold commandParts.
  change ([gcloudDeploy options] ++ baseFlags options name packageVersion
            ++ containerFlags options ++ sidecarFlags options)%list
    with ((gcloudDeploy options :: baseFlags options name packageVersion)
            ++ containerFlags options ++ sidecarFlags options)%list.
  now rewrite !filter_app.
Qed.

Lemma commandParts_nonEmpty (options : ExecutorSchema) (name : string)
      (packageVersion : option string) (t : string) :
  In t (commandParts options name packageVersion) -> t <> "".
Proof. apply filter_nonEmpty_In. Qed.

Lemma tagTokens_cases (options : ExecutorSchema) (packageVersion : option string) :
  tagTokens options packageVersion =
    if defaultTo (tagWithVersion options) false then
      match packageVersion with
      | Some v => ["--tag"; v]
      | None => []
      end
    else ["--no-tag"].
Proof.
  unfold tagTokens, args. cbn.
  destruct (defaultTo (tagWithVersion options) false); cbn;
    destruct packageVersion; reflexivity.
Qed.

Lemma untagged_parts_hold_no_tag (options : ExecutorSchema) (name : string)
      (packageVersion : option string) :
  defaultTo (tagWithVersion options) false = false ->
  In "--no-tag" (commandParts options name packageVersion).
Proof.
  intros H. unfold commandParts.
  apply filter_In. split; [| reflexivity].
  apply in_or_app. right. apply in_or_app. left.
  unfold baseFlags, Yargs.yargsUnparser. apply in_or_app. right.
  apply in_flat_map. exists ("tag", Js.bool false). split; [| now left].
  unfold args. rewrite H. cbn [Yargs.options Js.and Js.truthy Js.coalesce].
  do 15 right. now left.
Qed.

Ltac absent H :=
  match type of H with
  | isNone ?o = true => destruct o eqn:?; [discriminate H | clear H]
  end.

Lemma absent_allowUnauthenticated_is_flagged (options : ExecutorSchema)
      (name : string) (packageVersion : option string) :
  allowUnauthenticated options = None ->
  In "--allow-unauthenticated" (commandParts options name packageVersion).
Proof.
  intros H. unfold commandParts.
  apply filter_In. split; [| reflexivity].
  apply in_or_app. right. apply in_or_app. left.
  unfold baseFlags, Yargs.yargsUnparser. apply in_or_app. right.
  apply in_flat_map. exists ("allow-unauthenticated", Js.bool true).
  split; [| now left].
  unfold args. rewrite H. cbn [Yargs.options defaultTo Js.coalesce].
  do 18 right. now left.
Qed.

(** C1 (as amended). When an optional member other than [allowUnauthenticated]
    is absent from the configuration, the key it feeds is [undefined] in
    [args] and contributes no token, neither the flag nor its negation nor a
    value: the flags are those of [args] without the key. When
    [allowUnauthenticated] is absent it takes its default [true]: its key
    holds [true], which unparses to the one token [--allow-unauthenticated],
    and the command holds that token. No part of the command is empty. *)
Theorem omitted_field_contributes_no_token
        (options : ExecutorSchema) (name : string)
        (packageVersion : option string) (f : OptionalField) :
  omitted f options = true ->
  (plainlyOptional f = true ->
   Yargs.lookup (flagOf f) (Yargs.options (args options name packageVersion))
     = Some Js.undefined
   /\ Yargs.unparseOption (flagOf f) Js.undefined = []
   /\ baseFlags options name packageVersion
      = Yargs.yargsUnparser (Yargs.without (flagOf f) (args options name packageVersion)))
  /\ (f = AllowUnauthenticated ->
      Yargs.lookup (flagOf f) (Yargs.options (args options name packageVersion))
        = Some (Js.bool true)
      /\ Yargs.unparseOption (flagOf f) (Js.bool true) = ["--allow-unauthenticated"]
      /\ In "--allow-unauthenticated" (commandParts options name packageVersion))
  /\ (forall t, In t (commandParts options name packageVersion) -> t <> "").
Proof.
  intros Ho.
  split; [| split; [| apply commandParts_nonEmpty]].
  - intros Hf. split; [| split; [reflexivity |]].
    + destruct f; try discriminate Hf; unfold omitted in Ho; absent Ho;
        unfold args; cbn;
        repeat match goal with H : _ = None |- _ => rewrite H end;
        reflexivity.
    + destruct f; try discriminate Hf; unfold omitted in Ho; absent Ho;
        unfold baseFlags, Yargs.yargsUnparser, Yargs.without, args; cbn;
        repeat match goal with H : _ = None |- _ => rewrite H end;
        cbn; reflexivity.
  - intros ->. unfold omitted in Ho. absent Ho.
    split; [| split; [reflexivity |]].
    + unfold args; cbn;
        repeat match goal with H : _ = None |- _ => rewrite H end;
        reflexivity.
    + now apply absent_allowUnauthenticated_is_flagged.
Qed.

Lemma unparseOptions_app (l1 l2 : list (string * Js.value)) :
  Yargs.unparseOptions (l1 ++ l2)
  = (Yargs.unparseOptions l1 ++ Yargs.unparseOptions l2)%list.
Proof. apply flat_map_app. Qed.

Lemma baseFlags_volume (options : ExecutorSchema) (name : string)
      (packageVersion : option string) :
  baseFlags options name packageVersion
  = (baseFlags (withoutVolume options) name packageVersion
       ++ volumeTokens options)%list.
Proof.
  unfold baseFlags, Yargs.yargsUnparser, volumeTokens.
  set (common := removelast (Yargs.options (args (withoutVolume options) name packageVersion))).
  change (Yargs.options (args options name packageVersion))
    with (common ++ [("add-volume",
                       if present (volumeName options)
                       then Js.str ("name=" ++ Js.template (volumeName options))
                       else Js.undefined)])%list.
  change (Yargs.options (args (withoutVolume options) name packageVersion))
    with (common ++ [("add-volume", Js.undefined)])%list.
  rewrite !unparseOptions_app.
  change (Yargs.positional (args (withoutVolume options) name packageVersion))
    with (Yargs.positional (args options name packageVersion)).
  rewrite <- !app_assoc. do 2 f_equal.
  destruct (present (volumeName options)); reflexivity.
Qed.

(** C4 (as amended). A non-empty [volumeName] switches the verb to
    [gcloud beta run deploy] and adds, after the other flags of [args], the
    flag [--add-volume] followed by the token [name=<volumeName>], once;
    otherwise the verb is [gcloud run deploy] and the parts are those of the
    configuration without a volume. *)
Theorem volume_switches_surface
        (options : ExecutorSchema) (name : string) (packageVersion : option string) :
  let base := filter Js.nonEmpty (baseFlags (withoutVolume options) name packageVersion) in
  let containers :=
    filter Js.nonEmpty (containerFlags options ++ sidecarFlags options)%list in
  commandParts (withoutVolume options) name packageVersion
    = ("gcloud run deploy" :: base ++ containers)%list
  /\ commandParts options name packageVersion
     = if present (volumeName options) then
         ("gcloud beta run deploy"
            :: base
            ++ ["--add-volume"; ("name=" ++ Js.template (volumeName options))%string]
            ++ containers)%list
       else ("gcloud run deploy" :: base ++ containers)%list.
Proof.
  intros base containers. subst base containers.
  pose proof (baseFlags_volume options name packageVersion) as Hb.
  unfold commandParts.
  rewrite Hb. unfold volumeTokens.
  split.
  - change (gcloudDeploy (withoutVolume options)) with "gcloud run deploy".
    change (containerFlags (withoutVolume options)) with (containerFlags options).
    change (sidecarFlags (withoutVolume options)) with (sidecarFlags options).
    change ([?x] ++ ?l)%list with (x :: l).
    cbn [filter Js.nonEmpty String.eqb negb].
    now rewrite !filter_app.
  - unfold gcloudDeploy.
    destruct (present (volumeName options)) eqn:Ev.
    + change ([?x] ++ ?l)%list with (x :: l).
      cbn [filter Js.nonEmpty String.eqb negb].
      rewrite !filter_app.
      change (filter Js.nonEmpty
                ["--add-volume"; "name=" ++ Js.template (volumeName options)])
        with ["--add-volume"; "name=" ++ Js.template (volumeName options)].
      now rewrite <- !app_assoc.
    + change ([?x] ++ ?l)%list with (x :: l).
      cbn [filter Js.nonEmpty String.eqb negb].
      rewrite !filter_app. now rewrite app_nil_r.
Qed.

Lemma containerFlags_example :
  containerFlags example = getContainerFlags (container example) false
  /\ containerFlags example = shapeFlags (container example)
  /\ sidecarFlags example = [].
Proof. repeat split. Qed.

Lemma commandParts_example :
  commandParts example "svc" None
  = (["gcloud run deploy"; "svc"; "--project"; "p1"; "--platform"; "managed";
      "--quiet"; "--region"; "us-central1"]
       ++ tagTokens example None ++ ["--allow-unauthenticated"]
       ++ filter Js.nonEmpty (containerFlags example))%list.
Proof.
  rewrite commandParts_split.
  destruct containerFlags_example as (_ & _ & ->).
  cbn [filter]. rewrite app_nil_r. reflexivity.
Qed.

(** C5 (as amended). For the configuration [{name: "svc", project: "p1",
    region: "us-central1", allowUnauthenticated: true}] with no sidecars, the
    executor runs one command; it begins
    [gcloud run deploy svc --project p1 --platform managed --quiet --region us-central1]
    (flag and value are separate tokens) and it has the token
    [--allow-unauthenticated]. The key [add-volume] is undefined and neither
    the verb nor a flag of [args] starts with [--add-volume]. After them come
    the flags of the primary container alone, asked for without its
    identifier; no sidecar contributes, and when no flag of a container's
    shape is an identifier, no token of the containers is one. *)
Theorem example_command
        (core : Core) (fs : FileSystem)
        (context : ExecutorContext) (projRoot : string) :
  (forall c t, In t (shapeFlags c) -> isIdentifier t = false) ->
  projectRoot (Js.template (projectName context)) (projects context) = Some projRoot ->
  present (outputDirectory core example context) = true ->
  exists command rest,
    deployExecutor core fs example context
    = ([Executed command None None], inr (execCommand core command None))
    /\ command = Js.join " " (commandParts example "svc" None)
    /\ command
       = "gcloud run deploy svc --project p1 --platform managed --quiet --region us-central1"
           ++ rest
    /\ In "--allow-unauthenticated" (commandParts example "svc" None)
    /\ Yargs.lookup "add-volume" (Yargs.options (args example "svc" None))
       = Some Js.undefined
    /\ (forall t,
           In t (filter Js.nonEmpty (gcloudDeploy example :: baseFlags example "svc" None)) ->
           prefix "--add-volume" t = false)
    /\ commandParts example "svc" None
       = (filter Js.nonEmpty (gcloudDeploy example :: baseFlags example "svc" None)
            ++ filter Js.nonEmpty (containerFlags example))%list
    /\ containerFlags example = getContainerFlags (container example) false
    /\ sidecarFlags example = []
    /\ (forall t, In t (containerFlags example ++ sidecarFlags example)%list ->
                  isIdentifier t = false).
Proof.
  intros Hshape Hroot Hout.
  exists (Js.join " " (commandParts example "svc" None)).
  exists (" --no-tag "
            ++ Js.join " " ("--allow-unauthenticated"
                              :: filter Js.nonEmpty (containerFlags example))).
  split; [| split; [reflexivity |]].
  - unfold deployExecutor. rewrite Hroot. cbn [bind ret].
    rewrite Hout. reflexivity.
  - split; [rewrite commandParts_example; reflexivity |].
    split; [rewrite commandParts_example; cbn; tauto |].
    split; [reflexivity |].
    split.
    { intros t Ht. cbn in Ht.
      repeat (destruct Ht as [<- | Ht]; [reflexivity |]). contradiction. }
    split.
    { rewrite commandParts_split.
      destruct containerFlags_example as (_ & _ & ->).
      cbn [filter]. now rewrite app_nil_r. }
    destruct containerFlags_example as (Hc & Hs & Hside).
    split; [exact Hc |]. split; [exact Hside |].
    intros t Ht. rewrite Hside, app_nil_r, Hs in Ht.
    now apply Hshape in Ht.
Qed.

Lemma getContainerFlags_named (L : ContainerLaws M) (c : ContainerFlags) :
  exists t, In t (filter Js.nonEmpty (getContainerFlags c true))
            /\ isIdentifier t = true.
Proof.
  exists (identifierFlag c). split; [| apply (identifier_recognised L)].
  apply filter_In. split; [now left |].
  apply nonEmpty_true. intros E.
  pose proof (identifier_recognised L c) as H. rewrite E in H.
  rewrite (empty_unqualified L) in H. discriminate H.
Qed.

Lemma flat_map_filter {A} (f : A -> list string) (l : list A) :
  filter Js.nonEmpty (flat_map f l)
  = concat (map (fun a => filter Js.nonEmpty (f a)) l).
Proof.
  induction l as [| a l IH]; [reflexivity |].
  cbn. now rewrite filter_app, IH.
Qed.

(** C7. With no sidecar, no token of the primary container's flags is a
    container identifier; with one sidecar or more, the flags of the primary
    container and of every sidecar hold a container identifier; the command is
    the verb and the flags of [args], then the group of the primary container,
    then the groups of the sidecars in the order of their declaration. *)
Theorem container_identifiers
        (L : ContainerLaws M) (options : ExecutorSchema) (name : string)
        (packageVersion : option string) :
  let declared := defaultTo (sidecars options) [] in
  let primary := filter Js.nonEmpty (containerFlags options) in
  let group := fun sidecar => filter Js.nonEmpty (getContainerFlags sidecar true) in
  (declared = [] -> forall t, In t primary -> isIdentifier t = false)
  /\ (declared <> [] ->
      (exists t, In t primary /\ isIdentifier t = true)
      /\ forall sidecar, In sidecar declared ->
                         exists t, In t (group sidecar) /\ isIdentifier t = true)
  /\ commandParts options name packageVersion
     = (filter Js.nonEmpty (gcloudDeploy options :: baseFlags options name packageVersion)
          ++ primary ++ concat (map group declared))%list.
Proof.
  intros declared primary group. subst primary group.
  unfold containerFlags. fold declared.
  split; [| split].
  - intros -> t Ht. cbn in Ht.
    apply filter_In in Ht. destruct Ht as [Ht _].
    now apply (shape_unqualified L) in Ht.
  - intros Hne. split.
    + destruct declared as [| s rest]; [contradiction |].
      apply (getContainerFlags_named L).
    + intros sidecar _. apply (getContainerFlags_named L).
  - rewrite commandParts_split. unfold sidecarFlags, containerFlags. fold declared.
    now rewrite flat_map_filter.
Qed.

Lemma resolveVersion_no_error (options : ExecutorSchema) (context : ExecutorContext)
      (projRoot : string) (fs : FileSystem) :
  ~ throwsError (resolveVersion options context projRoot fs).
Proof.
  unfold resolveVersion, nodeVersion, pythonVersion, throwsError, outcome.
  intros [msg H].
  repeat match type of H with
         | context [match ?x with _ => _ end] => destruct x; cbn in H
         end; discriminate H.
Qed.

(** C8. The executor throws ["Build target has no outputPath configured!"]
    exactly when the output directory of the build target is not resolved, and
    ["Project name is required (name)"] exactly when the output directory is
    resolved and the name, the project name standing in for an unset [name],
    is empty; in both cases nothing has been logged, written or executed.
    With a resolved output directory and a non-empty name the executor throws
    no [Error] of its own. *)
Theorem configuration_errors
        (core : Core) (fs : FileSystem) (options : ExecutorSchema)
        (context : ExecutorContext) (projRoot : string) :
  projectRoot (Js.template (projectName context)) (projects context) = Some projRoot ->
  let run := deployExecutor core fs options context in
  let resolved := present (outputDirectory core options context) in
  let named := present (deploymentName options context) in
  (outcome run
   = inl (Error ("Build target has no " ++ Js.quoted "outputPath" ++ " configured!"))
   <-> resolved = false)
  /\ (outcome run = inl (Error "Project name is required (name)")
      <-> resolved = true /\ named = false)
  /\ (throwsError run <-> resolved = false \/ named = false)
  /\ (throwsError run -> events run = [])
  /\ (resolved = true -> named = true -> ~ throwsError run).
Proof.
  intros Hroot run resolved named. subst run resolved named.
  unfold deployExecutor. rewrite Hroot, bind_ret.
  destruct (present (outputDirectory core options context)) eqn:Hout; cbn [negb].
  2: { split; [| split; [| split; [| split]]].
       - split; reflexivity.
       - split; [intros H; discriminate H | intros [H _]; discriminate H].
       - split; [now left | intros _; eexists; reflexivity].
       - reflexivity.
       - intros H; discriminate H. }
  destruct (present (deploymentName options context)) eqn:Hname; cbn [negb].
  2: { split; [| split; [| split; [| split]]].
       - split; intros H; discriminate H.
       - split; [now split | reflexivity].
       - split; [now right | intros _; eexists; reflexivity].
       - reflexivity.
       - intros _ H; discriminate H. }
  match goal with
  | |- context [outcome ?m] =>
      assert (Hno : ~ throwsError m)
  end.
  { intros H.
    apply throwsError_bind in H. destruct H as [H | [x [_ H]]].
    - unfold throwsError, outcome in H. destruct H as [msg H].
      repeat match type of H with
             | context [match ?x with _ => _ end] => destruct x; cbn in H
             end; discriminate H.
    - apply throwsError_bind in H. destruct H as [H | [pv [_ H]]].
      + now apply resolveVersion_no_error in H.
      + apply throwsError_bind in H. destruct H as [H | [y [_ H]]].
        * destruct (present (volumeName options));
            [now apply throwsError_emit in H | now apply throwsError_ret in H].
        * apply throwsError_bind in H. destruct H as [H | [z [_ H]]];
            [now apply throwsError_emit in H | now apply throwsError_ret in H]. }
  split; [| split; [| split; [| split]]].
  - split; [| intros H; discriminate H].
    intros H. exfalso. apply Hno. eexists. exact H.
  - split; [| intros [_ H]; discriminate H].
    intros H. exfalso. apply Hno. eexists. exact H.
  - split; [intros H; now apply Hno in H | intros [H | H]; discriminate H].
  - intros H. now apply Hno in H.
  - intros _ _. exact Hno.
Qed.

Lemma exec_Chr (c : ascii) (r : list Regex.Node) (prev : option ascii)
      (s : string) (cap : option string) :
  Regex.exec (Regex.Chr c :: r) prev (String c s) cap = Regex.exec r (Some c) s cap.
Proof. cbn. now rewrite Ascii.eqb_refl. Qed.

Lemma exec_Class (p : ascii -> bool) (c : ascii) (r : list Regex.Node)
      (prev : option ascii) (s : string) (cap : option string) :
  p c = true ->
  Regex.exec (Regex.Class p :: r) prev (String c s) cap = Regex.exec r (Some c) s cap.
Proof. intros H. cbn. now rewrite H. Qed.

Lemma exec_Star (p : ascii -> bool) (r : list Regex.Node) (ws rest : string)
      (prev : option ascii) (cap res : option string) :
  Regex.allChars p ws = true ->
  Regex.stops p rest = true ->
  Regex.exec r (Regex.lastChar prev ws) rest cap = Some res ->
  Regex.exec (Regex.Star p :: r) prev (ws ++ rest) cap = Some res.
Proof. intros Hws Hrest Hk. cbn [Regex.exec]. now apply star_run. Qed.

Lemma exec_Group (p : ascii -> bool) (r : list Regex.Node) (v rest : string)
      (prev : option ascii) (cap res : option string) :
  v <> "" ->
  Regex.allChars p v = true ->
  Regex.stops p rest = true ->
  Regex.exec r (Regex.lastChar None v) rest (Some v) = Some res ->
  Regex.exec (Regex.Group p :: r) prev (v ++ rest) cap = Some res.
Proof. intros Hne Hv Hrest Hk. cbn [Regex.exec]. now apply plus_run. Qed.

Lemma quote_not_space (q : ascii) : isQuote q = true -> Regex.isSpace q = false.
Proof.
  unfold isQuote. intros H. apply orb_true_iff in H.
  destruct H as [H | H]; apply Ascii.eqb_eq in H; subst q; reflexivity.
Qed.

Lemma exec_versionLine (v line after : string) (prev : option ascii) :
  versionLine v line ->
  v <> "" ->
  Regex.allChars (fun c => negb (isQuote c)) v = true ->
  Regex.atLineStart prev = true ->
  Regex.atLineEnd after = true ->
  Regex.exec versionPattern prev (line ++ after) None = Some (Some v).
Proof.
  intros (ws1 & ws2 & ws3 & ws4 & q1 & q2 & H1 & H2 & H3 & H4 & Hq1 & Hq2 & ->)
         Hne Hv Hstart Hend.
  repeat (rewrite append_assoc || cbn [append]).
  unfold versionPattern.
  cbn [app Regex.literal map list_ascii_of_string].
  change (Regex.exec (Regex.LineStart :: ?r) prev ?s ?cap)
    with (if Regex.atLineStart prev then Regex.exec r prev s cap else None).
  rewrite Hstart.
  apply exec_Star; [exact H1 | reflexivity |].
  rewrite !exec_Chr.
  apply exec_Star; [exact H2 | reflexivity |].
  rewrite exec_Chr.
  apply exec_Star; [exact H3 | cbn; now rewrite (quote_not_space _ Hq1) |].
  rewrite (exec_Class isQuote _ _ _ _ _ Hq1).
  apply exec_Group; [exact Hne | exact Hv | cbn; now rewrite Hq2 |].
  rewrite (exec_Class isQuote _ _ _ _ _ Hq2).
  cbn [Regex.exec]. now apply star_lineEnd.
Qed.

Lemma replaceDots_no_dot (s : string) : Js.includes "." (Js.replaceDots s) = false.
Proof.
  induction s as [| c s IH]; [reflexivity |].
  cbn [Js.replaceDots Js.includes prefix]. rewrite IH.
  destruct (Ascii.eqb_spec c "."%char) as [-> | Hc].
  - reflexivity.
  - destruct (ascii_dec "." c) as [E | E]; [congruence | reflexivity].
Qed.

Lemma exec_versionPattern_inv (prev : option ascii) (s : string) (res : option string) :
  Regex.exec versionPattern prev s None = Some res ->
  exists v line after,
    res = Some v /\ s = line ++ after /\ versionLine v line
    /\ v <> "" /\ Regex.allChars (fun c => negb (isQuote c)) v = true
    /\ Regex.atLineStart prev = true /\ Regex.atLineEnd after = true.
Proof.
  unfold versionPattern.
  cbn [app Regex.literal map list_ascii_of_string].
  intros H.
  change (Regex.exec (Regex.LineStart :: ?r) prev ?s ?cap)
    with (if Regex.atLineStart prev then Regex.exec r prev s cap else None) in H.
  destruct (Regex.atLineStart prev) eqn:Hstart; [| discriminate H].
  change (Regex.exec (Regex.Star ?p :: ?r) ?pv ?s ?cap)
    with (Regex.star p (fun prev s => Regex.exec r prev s cap) pv s) in H.
  apply star_inv in H. destruct H as (ws1 & s1 & -> & H1 & H).
  do 7 (apply exec_Chr_inv in H; destruct H as (? & -> & H)).
  change (Regex.exec (Regex.Star ?p :: ?r) ?pv ?s ?cap)
    with (Regex.star p (fun prev s => Regex.exec r prev s cap) pv s) in H.
  apply star_inv in H. destruct H as (ws2 & s2 & -> & H2 & H).
  apply exec_Chr_inv in H. destruct H as (? & -> & H).
  change (Regex.exec (Regex.Star ?p :: ?r) ?pv ?s ?cap)
    with (Regex.star p (fun prev s => Regex.exec r prev s cap) pv s) in H.
  apply star_inv in H. destruct H as (ws3 & s3 & -> & H3 & H).
  apply exec_Class_inv in H. destruct H as (q1 & ? & -> & Hq1 & H).
  change (Regex.exec (Regex.Group ?p :: ?r) ?pv ?s ?cap)
    with (Regex.plus p (fun acc prev s => Regex.exec r prev s (Some acc)) "" s) in H.
  apply plus_inv in H. destruct H as (v & s4 & -> & Hne & Hv & H).
  apply exec_Class_inv in H. destruct H as (q2 & ? & -> & Hq2 & H).
  change (Regex.exec (Regex.Star ?p :: ?r) ?pv ?s ?cap)
    with (Regex.star p (fun prev s => Regex.exec r prev s cap) pv s) in H.
  apply star_inv in H. destruct H as (ws4 & after & -> & H4 & H).
  cbn [Regex.exec append] in H.
  destruct (Regex.atLineEnd after) eqn:Hend; [| discriminate H].
  inversion H; subst res.
  exists v, (ws1 ++ "version" ++ ws2 ++ "=" ++ ws3 ++ String q1 (v ++ String q2 ws4)), after.
  repeat split; try assumption.
  - repeat (rewrite append_assoc || cbn [append]). reflexivity.
  - now exists ws1, ws2, ws3, ws4, q1, q2.
Qed.

Lemma matchOf_versionPattern_inv (content : string) (res : option string) :
  Regex.matchOf versionPattern content = Some res ->
  exists v before line after,
    res = Some v /\ content = before ++ line ++ after /\ versionLine v line
    /\ v <> "" /\ Regex.allChars (fun c => negb (isQuote c)) v = true
    /\ Regex.atLineStart (Regex.lastChar None before) = true
    /\ Regex.atLineEnd after = true.
Proof.
  intros H. apply search_inv in H. destruct H as (before & rest & -> & H).
  apply exec_versionPattern_inv in H.
  destruct H as (v & line & after & -> & -> & Hline & Hne & Hv & Hs & He).
  now exists v, before, line, after.
Qed.

Lemma versionLine_includes (v line : string) :
  versionLine v line -> exists a b, line = a ++ "version" ++ b.
Proof.
  intros (ws1 & ws2 & ws3 & ws4 & q1 & q2 & _ & _ & _ & _ & _ & _ & ->).
  now eexists ws1, _.
Qed.

Lemma versionLine_matches (v content : string) :
  v <> "" ->
  Regex.allChars (fun c => negb (isQuote c)) v = true ->
  containsVersionLine v content ->
  exists res, Regex.matchOf versionPattern content = Some res.
Proof.
  intros Hne Hv (before & line & after & -> & Hline & Hstart & Hend).
  unfold Regex.matchOf.
  apply search_some with (res := Some v).
  now apply exec_versionLine.
Qed.

Lemma unmatched_holds_no_versionLine (content : string) :
  Regex.matchOf versionPattern content = None ->
  forall v, v <> "" ->
            Regex.allChars (fun c => negb (isQuote c)) v = true ->
            ~ containsVersionLine v content.
Proof.
  intros Hm v Hne Hv Hc.
  destruct (versionLine_matches Hne Hv Hc) as [res H]. congruence.
Qed.

(** C6 (as amended). A version tag is [v] followed by the version with every
    dot replaced by a hyphen. A [package.json] whose [version] is ["1.2.3"]
    gives [v1-2-3]. A [pyproject.toml] gives the tag of the leftmost match of
    the pattern: when a full line reads [version = Q v Q] (either quote for
    each [Q], any white space around the words, [v] not empty and without a
    quote) and no match begins before that line, the tag is that of [v], as
    [v0-4-0] for ["0.4.0"]. A readable [pyproject.toml] gives no tag and the
    one warning that no version field was detected exactly when it holds no
    such line, for any [v]. *)
Theorem version_tags :
  (forall version,
      versionTag version = "v" ++ Js.replaceDots version
      /\ Js.includes "." (versionTag version) = false)
  /\ (forall fs path,
         existsSync fs path = true ->
         readJsonFile fs path = JsonParsed (JsonString "1.2.3") ->
         nodeVersion fs path
         = ([LogInfo "Using package.json version: 1.2.3"], inr (Some "v1-2-3")))
  /\ (forall fs path content before line after v,
         existsSync fs path = true ->
         readFileSync fs path = ReadOk content ->
         content = before ++ line ++ after ->
         versionLine v line ->
         Regex.atLineStart (Regex.lastChar None before) = true ->
         Regex.atLineEnd after = true ->
         v <> "" ->
         Regex.allChars (fun c => negb (isQuote c)) v = true ->
         (forall i, (i < String.length before)%nat ->
                    Regex.attempt versionPattern None content i = None) ->
         pythonVersion fs path
         = ([LogInfo ("Using pyproject.toml version: " ++ v)],
            inr (Some (versionTag v))))
  /\ versionTag "0.4.0" = "v0-4-0"
  /\ (forall fs path content,
         existsSync fs path = true ->
         readFileSync fs path = ReadOk content ->
         ((forall v, v <> "" ->
                     Regex.allChars (fun c => negb (isQuote c)) v = true ->
                     ~ containsVersionLine v content)
          <-> pythonVersion fs path
              = ([LogWarn "pyproject.toml found but no version field detected"],
                 inr None))).
Proof.
  split; [| split; [| split; [| split]]].
  - intros version. split; [reflexivity |].
    unfold versionTag. cbn [append Js.includes prefix].
    destruct (ascii_dec "." "v"); [discriminate |].
    apply replaceDots_no_dot.
  - intros fs path He Hr. unfold nodeVersion. now rewrite He, Hr.
  - intros fs path content before line after v He Hr -> Hline Hstart Hend Hne Hv Hfirst.
    unfold pythonVersion. rewrite He, Hr.
    unfold Regex.matchOf.
    rewrite search_first with (n := String.length before) (res := Some v).
    + reflexivity.
    + exact Hfirst.
    + rewrite attempt_app. now apply exec_versionLine.
  - reflexivity.
  - intros fs path content He Hr. unfold pythonVersion. rewrite He, Hr.
    destruct (Regex.matchOf versionPattern content) as [res |] eqn:Hm.
    + destruct (matchOf_versionPattern_inv _ Hm)
        as (v & before & line & after & -> & Hc & Hl & Hne & Hv & Hs & Hend).
      split; [| intros H; discriminate H].
      intros Hnone. exfalso. apply (Hnone v Hne Hv).
      now exists before, line, after.
    + split; [reflexivity |].
      intros _. now apply unmatched_holds_no_versionLine.
Qed.

Lemma pythonVersion_never_throws (fs : FileSystem) (path : Path) :
  exists version, outcome (pythonVersion fs path) = inr version.
Proof.
  unfold pythonVersion.
  destruct (existsSync fs path); [| now eexists].
  destruct (readFileSync fs path); [now eexists |].
  destruct (Regex.matchOf versionPattern content) as [[v |] |]; now eexists.
Qed.

Lemma pythonVersion_untagged_warns (fs : FileSystem) (path : Path) :
  outcome (pythonVersion fs path) = inr None ->
  exists message, warnings (events (pythonVersion fs path)) = [message].
Proof.
  unfold pythonVersion.
  destruct (existsSync fs path); [| now eexists].
  destruct (readFileSync fs path); [now eexists |].
  destruct (Regex.matchOf versionPattern content) as [[v |] |];
    [discriminate | now eexists | now eexists].
Qed.

Lemma nodeVersion_parse_failure (fs : FileSystem) (path : Path) (e : string) :
  existsSync fs path = true ->
  readJsonFile fs path = JsonThrows e ->
  nodeVersion fs path = ([], inl (Raised e)).
Proof. intros He Hr. unfold nodeVersion. now rewrite He, Hr. Qed.

Lemma nodeVersion_missing_field (fs : FileSystem) (path : Path) (version : JsonValue) :
  existsSync fs path = true ->
  readJsonFile fs path = JsonParsed version ->
  jsonTruthy version = false ->
  nodeVersion fs path = ([], inr None).
Proof. intros He Hr Hv. unfold nodeVersion. now rewrite He, Hr, Hv. Qed.

End DeployProperties.

(** ** The executor built on [buildCommand] *)

Section LegacyProperties.

Import Legacy.

Lemma prefix_nil (s : string) : prefix "" s = true.
Proof. now destruct s. Qed.

Lemma prefix_append (sub b : string) : prefix sub (sub ++ b) = true.
Proof.
  induction sub as [| c sub IH]; [apply prefix_nil |].
  cbn. destruct (ascii_dec c c); [exact IH | congruence].
Qed.

Lemma includes_prefix (sub s : string) : prefix sub s = true -> Js.includes sub s = true.
Proof. intros H. destruct s; cbn [Js.includes]; now rewrite H. Qed.

Lemma includes_append (sub a b : string) : Js.includes sub (a ++ sub ++ b) = true.
Proof.
  induction a as [| c a IH].
  - cbn [append]. apply includes_prefix, prefix_append.
  - cbn [append Js.includes]. rewrite IH. apply orb_true_r.
Qed.

Lemma wellFormed_valid (secret : string) :
  wellFormedSecret secret -> validSecret secret = true.
Proof.
  intros (n & sn & ver & ->). unfold validSecret.
  rewrite includes_append.
  replace (n ++ "=" ++ sn ++ ":" ++ ver) with ((n ++ "=" ++ sn) ++ ":" ++ ver).
  - now rewrite includes_append.
  - now rewrite !append_assoc.
Qed.

Lemma mapSecrets_run (secrets : list string) :
  mapSecrets secrets
  = (map (fun s => LogWarn (invalidSecretWarning s))
         (filter (fun s => negb (validSecret s)) secrets),
     inr (map (fun s => if validSecret s then Js.str s else Js.bool false) secrets)).
Proof.
  induction secrets as [| s rest IH]; [reflexivity |].
  cbn [mapSecrets map filter]. rewrite IH.
  destruct (validSecret s); cbn [bind ret emit app negb map];
    now rewrite ?app_nil_r.
Qed.

Lemma valid_truthy (s : string) : validSecret s = true -> Js.truthy (Js.str s) = true.
Proof.
  unfold validSecret. intros H. destruct s; [discriminate H | reflexivity].
Qed.

Lemma validSecrets_run (secrets : list string) :
  validSecrets secrets
  = (map (fun s => LogWarn (invalidSecretWarning s))
         (filter (fun s => negb (validSecret s)) secrets),
     inr (map Js.str (filter validSecret secrets))).
Proof.
  unfold validSecrets. rewrite mapSecrets_run. cbn [bind ret].
  rewrite app_nil_r. do 2 f_equal.
  induction secrets as [| s rest IH]; [reflexivity |].
  cbn [map filter]. destruct (validSecret s) eqn:E.
  - cbn [filter map]. rewrite (valid_truthy s E). cbn [map]. now rewrite IH.
  - cbn [filter Js.truthy]. exact IH.
Qed.

Lemma sameButWarnings_refl {A} (m : Exec A) : sameButWarnings m m.
Proof. now split. Qed.

Lemma sameButWarnings_bind {A B} (m m' : Exec A) (k k' : A -> Exec B) :
  sameButWarnings m m' ->
  (forall a, sameButWarnings (k a) (k' a)) ->
  sameButWarnings (bind m k) (bind m' k').
Proof.
  intros [Ho He] Hk. unfold sameButWarnings.
  rewrite !outcome_bind, !events_bind, <- Ho.
  destruct (outcome m) as [e | a]; [now split |].
  destruct (Hk a) as [Hko Hke]. split; [exact Hko |].
  now rewrite !filter_app, He, Hke.
Qed.

Lemma endsWith_bind {A B} (P : Event -> Prop) (m : Exec A) (k : A -> Exec B) :
  (forall a, outcome m = inr a -> endsWith P (k a)) ->
  endsWith P (bind m k).
Proof.
  intros Hk b Hb. rewrite outcome_bind in Hb. rewrite events_bind.
  destruct (outcome m) as [e | a]; [discriminate Hb |].
  destruct (Hk a eq_refl b Hb) as (earlier & ev & Hev & HP).
  exists (events m ++ earlier)%list, ev. split; [| exact HP].
  now rewrite Hev, app_assoc.
Qed.

Lemma endsWith_throw {A} (P : Event -> Prop) (e : Exception) :
  endsWith P (@throw A e).
Proof. intros b Hb. discriminate Hb. Qed.

Lemma filter_idem {A} (f : A -> bool) (l : list A) :
  filter f (filter f l) = filter f l.
Proof.
  induction l as [| a l IH]; [reflexivity |].
  cbn. destruct (f a) eqn:E; cbn; [rewrite E, IH |]; auto.
Qed.

Lemma filter_none {A} (f : A -> bool) (l : list A) :
  (forall a, In a l -> f a = false) -> filter f l = [].
Proof.
  induction l as [| a l IH]; [reflexivity |].
  intros H. cbn. rewrite (H a (or_introl eq_refl)). apply IH.
  intros b Hb. apply H. now right.
Qed.

Lemma validSecrets_events (secrets : list string) :
  filter notWarning (events (validSecrets secrets)) = [].
Proof.
  rewrite validSecrets_run. apply filter_none.
  intros ev Hev. cbn [events fst] in Hev. apply in_map_iff in Hev.
  now destruct Hev as (s & <- & _).
Qed.

Lemma validSecrets_same (secrets : list string) :
  sameButWarnings (validSecrets secrets)
                  (validSecrets (filter validSecret secrets)).
Proof.
  split; [| now rewrite !validSecrets_events].
  rewrite !validSecrets_run. cbn [outcome snd]. now rewrite filter_idem.
Qed.

Lemma deployExecutor_withSecrets
      (execCommand : ExecCommand) (fs : FileSystem)
      (options : ExecutorSchema) (context : ExecutorContext) :
  sameButWarnings
    (deployExecutor execCommand fs options context)
    (deployExecutor execCommand fs
       (withSecrets options
          (Some (filter validSecret (Deploy.defaultTo (secrets options) []))))
       context).
Proof.
  set (options' := withSecrets options _).
  assert (Hparts : deployParts options' = deployParts options) by reflexivity.
  unfold deployExecutor. rewrite Hparts.
  change (dockerFile options') with (dockerFile options).
  change (buildWith options') with (buildWith options).
  change (project options') with (project options).
  change (name options') with (name options).
  change (logsDir options') with (logsDir options).
  change (tagWithVersion options') with (tagWithVersion options).
  change (generateRepoInfoFile options') with (generateRepoInfoFile options).
  change (Deploy.defaultTo (secrets options') [])
    with (filter validSecret (Deploy.defaultTo (secrets options) [])).
  apply sameButWarnings_bind; [apply sameButWarnings_refl | intros proj].
  destruct (negb (Deploy.present (outputPath proj))); [apply sameButWarnings_refl |].
  cbn zeta.
  apply sameButWarnings_bind; [apply sameButWarnings_refl | intros _].
  apply sameButWarnings_bind; [apply sameButWarnings_refl | intros _].
  apply sameButWarnings_bind; [apply sameButWarnings_refl | intros pv].
  apply sameButWarnings_bind; [apply validSecrets_same | intros vs].
  apply sameButWarnings_refl.
Qed.

Lemma concat_cons (sep x : string) (xs : list string) :
  exists rest, String.concat sep (x :: xs) = x ++ rest.
Proof.
  destruct xs as [| y ys].
  - exists "". cbn. now rewrite append_nil_r.
  - now exists (sep ++ String.concat sep (y :: ys)).
Qed.

Lemma deployParts_head (options : ExecutorSchema) (name packageVersion : Js.value)
      (validSecrets : list Js.value) :
  exists others,
    deployParts options name packageVersion validSecrets
    = Js.str (gcloudCommand validSecrets ++ " run deploy " ++ Js.toString name)
        :: others.
Proof. unfold deployParts. eexists. reflexivity. Qed.

Lemma buildCommand_deployParts (options : ExecutorSchema) (name packageVersion : Js.value)
      (validSecrets : list Js.value) :
  exists rest,
    buildCommand (deployParts options name packageVersion validSecrets)
    = gcloudCommand validSecrets ++ " run deploy " ++ Js.toString name ++ rest.
Proof.
  destruct (deployParts_head options name packageVersion validSecrets) as [others ->].
  unfold buildCommand.
  cbn [filter].
  replace (Js.truthy (Js.str (gcloudCommand validSecrets ++ " run deploy " ++ Js.toString name)))
    with true by (unfold gcloudCommand; now destruct (0 <? _)%nat).
  cbn [map Js.toString]. unfold Js.join.
  match goal with
  | |- context [String.concat " " (?x :: ?xs)] =>
      destruct (concat_cons " " x xs) as [rest ->]
  end.
  exists rest. now rewrite !append_assoc.
Qed.

Lemma existsb_filter {A} (f : A -> bool) (l : list A) :
  existsb f l = (0 <? List.length (filter f l))%nat.
Proof.
  induction l as [| a l IH]; [reflexivity |].
  cbn. destruct (f a); [reflexivity | exact IH].
Qed.

(** C10. When one secret or more passes validation the deployment command is
    [gcloud beta run deploy <name> ...]; when none does it is
    [gcloud run deploy <name> ...]. *)
Theorem secrets_switch_surface
        (execCommand : ExecCommand) (fs : FileSystem)
        (options : ExecutorSchema) (context : ExecutorContext) (success : bool) :
  let run := deployExecutor execCommand fs options context in
  let beta := existsb validSecret (Deploy.defaultTo (secrets options) []) in
  let name :=
    match name options with
    | Some n => n
    | None => Js.template (projectName context)
    end in
  outcome run = inr success ->
  exists earlier command cwd rest,
    events run = (earlier ++ [Executed command cwd None])%list
    /\ command
       = (if beta then "gcloud beta" else "gcloud") ++ " run deploy " ++ name ++ rest
    /\ prefix "gcloud beta " command = beta.
Proof.
  intros run beta name' Hrun.
  cut (endsWith
         (fun ev =>
            exists command cwd rest,
              ev = Executed command cwd None
              /\ command
                 = (if beta then "gcloud beta" else "gcloud")
                     ++ " run deploy " ++ name' ++ rest
              /\ prefix "gcloud beta " command = beta)
         run).
  { intros H. destruct (H success Hrun) as (earlier & ev & Hev & command & cwd & rest & -> & Hc & Hp).
    now exists earlier, command, cwd, rest. }
  clear success Hrun. subst run. unfold deployExecutor.
  apply endsWith_bind; intros proj _.
  destruct (negb (Deploy.present (outputPath proj))); [apply endsWith_throw |].
  cbn zeta.
  apply endsWith_bind; intros _ _.
  apply endsWith_bind; intros _ _.
  apply endsWith_bind; intros pv _.
  apply endsWith_bind; intros vs Hvs.
  rewrite validSecrets_run in Hvs. injection Hvs as <-.
  apply endsWith_bind; intros _ _.
  apply endsWith_bind; intros _ _.
  intros b _.
  match goal with
  | |- context [deployParts ?o ?n ?p ?v] =>
      destruct (buildCommand_deployParts o n p v) as [rest Hrest]
  end.
  eexists [], _. split; [reflexivity |].
  eexists _, _, rest. split; [reflexivity |].
  rewrite Hrest. unfold gcloudCommand.
  rewrite length_map, <- existsb_filter. fold beta.
  replace (Js.toString match Legacy.name options with
                       | Some n => Js.str n
                       | None => Js.ofString (projectName context)
                       end) with name'
    by (subst name'; now destruct (Legacy.name options)).
  split; [reflexivity |].
  destruct beta; reflexivity.
Qed.

End LegacyProperties.

(** ** Concrete runs *)

Section ConcreteRuns.

Import Deploy.

#[local] Existing Instance Fixture.model.

Lemma laws : ContainerLaws Fixture.model.
Proof.
  split.
  - intros c. apply (prefix_append "--container=").
  - intros [n [i |] [m |]] t; cbn;
      intros H; repeat (destruct H as [<- | H]; [reflexivity |]); contradiction.
  - reflexivity.
  - reflexivity.
Qed.

(** C1, the claim as stated fails: with [allowUnauthenticated] absent the
    command still holds the flag [--allow-unauthenticated]. *)
Lemma omitted_allowUnauthenticated_is_flagged :
  ~ (forall (options : ExecutorSchema) (name : string)
            (packageVersion : option string) (f : OptionalField),
        omitted f options = true ->
        flagFree (flagOf f) (commandParts options name packageVersion)).
Proof.
  intros H.
  destruct (H Fixture.unauthenticatedUnset "svc" None AllowUnauthenticated eq_refl)
    as [Hflag _].
  apply Hflag. vm_compute.
  repeat first [left; reflexivity | right].
Qed.

Lemma omitted_field_witness :
  (omitted MinInstances Fixture.svc = true
   /\ plainlyOptional MinInstances = true
   /\ baseFlags Fixture.svc "svc" None
      = Yargs.yargsUnparser (Yargs.without "min-instances" (args Fixture.svc "svc" None)))
  /\ (omitted AllowUnauthenticated Fixture.unauthenticatedUnset = true
      /\ In "--allow-unauthenticated"
            (commandParts Fixture.unauthenticatedUnset "svc" None)).
Proof.
  split.
  - split; [reflexivity |]. split; [reflexivity |].
    exact (proj2 (proj2 (proj1
             (omitted_field_contributes_no_token
                Fixture.svc "svc" None MinInstances eq_refl) eq_refl))).
  - split; [reflexivity |].
    exact (proj2 (proj2 (proj1 (proj2
             (omitted_field_contributes_no_token
                Fixture.unauthenticatedUnset "svc" None AllowUnauthenticated eq_refl))
             eq_refl))).
Defined.

(** C2, the code departs from the claim: with tagging requested from the node
    manifest, a [package.json] that does not parse aborts the executor, and
    one without a version leaves the deployment untagged with no warning;
    the python branch warns and goes on in both cases. *)
Theorem node_manifest_failures :
  deployExecutor
    Fixture.core (Fixture.files (Some (JsonThrows "Unexpected end of JSON input")) None)
    (Fixture.tagged node) Fixture.context
  = ([], inl (Raised "Unexpected end of JSON input"))
  /\ deployExecutor
       Fixture.core (Fixture.files (Some (JsonParsed JsonAbsent)) None)
       (Fixture.tagged node) Fixture.context
     = ([Executed
           "gcloud run deploy svc --project p1 --platform managed --quiet --region us-central1 --allow-unauthenticated"
           None None],
        inr true)
  /\ deployExecutor
       Fixture.core (Fixture.files None (Some (ReadThrows "EACCES: permission denied")))
       (Fixture.tagged python) Fixture.context
     = ([LogWarn "Failed to parse pyproject.toml: EACCES: permission denied";
         Executed
           "gcloud run deploy svc --project p1 --platform managed --quiet --region us-central1 --allow-unauthenticated"
           None None],
        inr true)
  /\ deployExecutor
       Fixture.core (Fixture.files None (Some (ReadOk "[project]")))
       (Fixture.tagged python) Fixture.context
     = ([LogWarn "pyproject.toml found but no version field detected";
         Executed
           "gcloud run deploy svc --project p1 --platform managed --quiet --region us-central1 --allow-unauthenticated"
           None None],
        inr true).
Proof. repeat split; vm_compute; reflexivity. Qed.

(** C3, the code departs from the claim: with [tagWithVersion] not requested
    the key [tag] of [args] is [false], not [undefined], and the command
    holds the token [--no-tag]. *)
Theorem untagged_deployment_emits_no_tag :
  Yargs.lookup "tag" (Yargs.options (args Fixture.svc "svc" None))
  = Some (Js.bool false)
  /\ tagTokens Fixture.svc None = ["--no-tag"]
  /\ deployExecutor Fixture.core (Fixture.files None None) Fixture.svc Fixture.context
     = ([Executed
           "gcloud run deploy svc --project p1 --platform managed --quiet --region us-central1 --no-tag --allow-unauthenticated"
           None None],
        inr true).
Proof. repeat split; vm_compute; reflexivity. Qed.

(** C4, the claim as stated fails: with the volume [data] no token of the
    command is [--add-volume=name=data]. *)
Lemma volume_flag_is_two_tokens :
  gcloudDeploy Fixture.withVolume = "gcloud beta run deploy"
  /\ ~ In "--add-volume=name=data" (commandParts Fixture.withVolume "svc" None).
Proof.
  split; [reflexivity |]. vm_compute.
  intros H. repeat (destruct H as [H | H]; [discriminate H |]). exact H.
Qed.

(** C5, the claim as stated fails: the command of the example configuration
    does not begin with the flags written [--project=p1 --platform=managed]. *)
Lemma example_command_separates_values :
  exists command,
    executed (events (deployExecutor Fixture.core (Fixture.files None None)
                                     Fixture.svc Fixture.context))
    = [command]
    /\ prefix "gcloud run deploy svc --project=p1 --platform=managed --quiet --region=us-central1"
              command
       = false.
Proof. eexists. split; vm_compute; reflexivity. Qed.

Lemma example_command_witness :
  (forall (c : Fixture.Container) t, In t (shapeFlags c) -> isIdentifier t = false)
  /\ projectRoot (Js.template (projectName Fixture.context)) (projects Fixture.context)
     = Some "apps/api"
  /\ present (outputDirectory Fixture.core example Fixture.context) = true
  /\ exists command rest,
      deployExecutor Fixture.core (Fixture.files None None) example Fixture.context
      = ([Executed command None None], inr (execCommand Fixture.core command None))
      /\ command
         = "gcloud run deploy svc --project p1 --platform managed --quiet --region us-central1"
             ++ rest.
Proof.
  split; [exact (shape_unqualified laws) |].
  split; [reflexivity |]. split; [reflexivity |].
  destruct (example_command Fixture.core (Fixture.files None None)
                            Fixture.context (projRoot := "apps/api")
                            (shape_unqualified laws) eq_refl eq_refl)
    as (command & rest & Hrun & _ & Hcommand & _).
  now exists command, rest.
Defined.

(** C6, the claim as stated fails: a manifest that holds the full line
    [version = '0.4.0'] after another version line resolves to the tag of the
    earlier line. *)
Lemma earlier_version_line_wins :
  ~ (forall (fs : FileSystem) (path : Path) (content : string),
        existsSync fs path = true ->
        readFileSync fs path = ReadOk content ->
        containsVersionLine "0.4.0" content ->
        outcome (pythonVersion fs path) = inr (Some "v0-4-0")).
Proof.
  intros H.
  specialize (H (Fixture.files None (Some (ReadOk Fixture.pyprojectTwoTables)))
                (Fixture.manifestPath "pyproject.toml")
                Fixture.pyprojectTwoTables eq_refl eq_refl).
  assert (Hline : containsVersionLine "0.4.0" Fixture.pyprojectTwoTables).
  { exists ("[tool.poetry]" ++ Fixture.newline ++ "version = '1.0.0'"
              ++ Fixture.newline ++ "[project]" ++ Fixture.newline),
           "version = '0.4.0'", Fixture.newline.
    split; [reflexivity |]. split; [| split; reflexivity].
    exists "", " ", " ", "", "'"%char, "'"%char.
    repeat split; reflexivity. }
  specialize (H Hline). vm_compute in H. discriminate H.
Qed.

Lemma version_tags_witness :
  pythonVersion (Fixture.files None (Some (ReadOk Fixture.pyproject)))
                (Fixture.manifestPath "pyproject.toml")
  = ([LogInfo "Using pyproject.toml version: 0.4.0"], inr (Some "v0-4-0"))
  /\ nodeVersion (Fixture.files (Some (JsonParsed (JsonString "1.2.3"))) None)
                 (Fixture.manifestPath "package.json")
     = ([LogInfo "Using package.json version: 1.2.3"], inr (Some "v1-2-3"))
  /\ pythonVersion
       (Fixture.files None (Some (ReadOk ("version = '0.4.0' # next" ++ Fixture.newline))))
       (Fixture.manifestPath "pyproject.toml")
     = ([LogWarn "pyproject.toml found but no version field detected"], inr None).
Proof.
  destruct version_tags as (_ & Hnode & Hpython & _ & Hnone).
  split; [| split].
  - apply (Hpython _ _ Fixture.pyproject
                   ("[project]" ++ Fixture.newline ++ "name = 'api'" ++ Fixture.newline)
                   "version = '0.4.0'" Fixture.newline "0.4.0");
      try reflexivity.
    + exists "", " ", " ", "", "'"%char, "'"%char. repeat split; reflexivity.
    + discriminate.
    + intros i Hi.
      do 23 (destruct i as [| i]; [reflexivity |]).
      vm_compute in Hi. lia.
  - apply Hnode; reflexivity.
  - apply (Hnone _ _ ("version = '0.4.0' # next" ++ Fixture.newline));
      [reflexivity | reflexivity |].
    apply unmatched_holds_no_versionLine. reflexivity.
Defined.

Lemma container_identifiers_witness :
  (exists t, In t (filter Js.nonEmpty (containerFlags Fixture.withSidecars))
             /\ isIdentifier t = true)
  /\ (forall t, In t (filter Js.nonEmpty (containerFlags Fixture.svc)) ->
                isIdentifier t = false).
Proof.
  split.
  - refine (proj1 (proj1 (proj2 (container_identifiers
                                    laws Fixture.withSidecars "svc" None)) _)).
    discriminate.
  - apply (proj1 (container_identifiers laws Fixture.svc "svc" None)).
    reflexivity.
Defined.

Lemma configuration_errors_witness :
  projectRoot (Js.template (projectName Fixture.context)) (projects Fixture.context)
  = Some "apps/api"
  /\ ~ throwsError (deployExecutor Fixture.core (Fixture.files None None)
                                   Fixture.svc Fixture.context).
Proof.
  split; [reflexivity |].
  apply (proj2 (proj2 (proj2 (proj2
           (configuration_errors Fixture.core (Fixture.files None None)
                                 Fixture.svc Fixture.context
                                 (projRoot := "apps/api") eq_refl)))));
    reflexivity.
Defined.

End ConcreteRuns.

(** C9, the claim as stated fails: the entry [:=] does not read
    [NAME=SECRET:VERSION], yet validation keeps it and logs no warning. *)
Lemma malformed_secret_is_kept :
  ~ Legacy.wellFormedSecret ":="
  /\ Legacy.validSecrets [":="] = ([], inr [Js.str ":="]).
Proof.
  split; [| reflexivity].
  intros (n & sn & v & H).
  destruct n as [| c n]; [discriminate H |].
  injection H as _ H.
  destruct n as [| c' n]; cbn in H.
  - injection H as H. destruct sn; discriminate H.
  - injection H as _ H. destruct n; discriminate H.
Qed.

Lemma secrets_switch_surface_witness :
  outcome (Legacy.deployExecutor Fixture.succeed (Fixture.files None None)
             (Fixture.legacyOptions (Some ["API_KEY=api-key:latest"; "bad"]))
             Fixture.legacyContext)
  = inr true
  /\ exists earlier command cwd rest,
      events (Legacy.deployExecutor Fixture.succeed (Fixture.files None None)
                (Fixture.legacyOptions (Some ["API_KEY=api-key:latest"; "bad"]))
                Fixture.legacyContext)
      = (earlier ++ [Executed command cwd None])%list
      /\ command = "gcloud beta" ++ " run deploy " ++ "svc" ++ rest.
Proof.
  split; [reflexivity |].
  destruct (secrets_switch_surface
              Fixture.succeed (Fixture.files None None)
              (Fixture.legacyOptions (Some ["API_KEY=api-key:latest"; "bad"]))
              Fixture.legacyContext (success := true) eq_refl)
    as (earlier & command & cwd & rest & Hev & Hc & _).
  now exists earlier, command, cwd, rest.
Defined.

(** * Further properties *)

(** ** Events of a sequence *)

Lemma executed_bind {A B} (m : Exec A) (k : A -> Exec B) :
  executed (events (bind m k)) =
    match outcome m with
    | inl _ => executed (events m)
    | inr a => (executed (events m) ++ executed (events (k a)))%list
    end.
Proof.
  rewrite events_bind. destruct (outcome m); [reflexivity |].
  unfold executed. apply flat_map_app.
Qed.

Lemma written_bind {A B} (m : Exec A) (k : A -> Exec B) :
  written (events (bind m k)) =
    match outcome m with
    | inl _ => written (events m)
    | inr a => (written (events m) ++ written (events (k a)))%list
    end.
Proof.
  rewrite events_bind. destruct (outcome m); [reflexivity |].
  unfold written. apply flat_map_app.
Qed.

Lemma warnings_app (l1 l2 : list Event) :
  warnings (l1 ++ l2) = (warnings l1 ++ warnings l2)%list.
Proof. apply flat_map_app. Qed.

Lemma showNumber_nonEmpty (n : Js.Number) : Js.nonEmpty (Js.showNumber n) = true.
Proof.
  unfold Js.showNumber.
  destruct (Z.to_int (Js.integer n)) as [d | d]; [| reflexivity].
  destruct d; reflexivity.
Qed.

(** ** The executor built on [yargs-unparser], continued *)

Section DeployExtras.

Context {M : ContainerModel}.

Import Deploy.

Lemma parts_of_entry (options : ExecutorSchema) (name : string)
      (packageVersion : option string) (k : string) (v : Js.value)
      (l1 l2 : list (string * Js.value)) :
  Yargs.options (args options name packageVersion) = (l1 ++ (k, v) :: l2)%list ->
  commandParts options name packageVersion
  = (filter Js.nonEmpty (gcloudDeploy options :: name :: Yargs.unparseOptions l1)
       ++ filter Js.nonEmpty (Yargs.unparseOption k v)
       ++ filter Js.nonEmpty (Yargs.unparseOptions l2
                                ++ containerFlags options ++ sidecarFlags options))%list.
Proof.
  intros H. unfold commandParts, baseFlags, Yargs.yargsUnparser. rewrite H.
  change (Yargs.positional (args options name packageVersion)) with [name].
  rewrite unparseOptions_app.
  change (Yargs.unparseOptions ((k, v) :: l2))
    with (Yargs.unparseOption k v ++ Yargs.unparseOptions l2)%list.
  rewrite <- !filter_app. f_equal.
  cbn [app]. now rewrite <- !app_assoc.
Qed.

Lemma gcloudDeploy_nonEmpty (options : ExecutorSchema) :
  Js.nonEmpty (gcloudDeploy options) = true.
Proof. unfold gcloudDeploy. now destruct (present (volumeName options)). Qed.

Ltac split_options n :=
  match goal with
  | |- exists l1 l2, ?opts = _ =>
      exists (firstn n opts), (skipn (S n) opts); reflexivity
  end.

(** X1. The command starts with the verb, the name, then the project, the
    platform, the quiet flag and the region, in this order, whatever else is
    configured. *)
Theorem command_head
        (options : ExecutorSchema) (name : string) (packageVersion : option string) :
  name <> "" ->
  project options <> "" ->
  region options <> "" ->
  exists rest,
    commandParts options name packageVersion
    = gcloudDeploy options :: name
        :: "--project" :: project options
        :: "--platform" :: "managed"
        :: "--quiet"
        :: "--region" :: region options :: rest.
Proof.
  intros Hn Hp Hr.
  apply nonEmpty_true in Hn, Hp, Hr.
  rewrite (@parts_of_entry options name packageVersion
             "region" (Js.str (region options))
             [("project", Js.str (project options));
              ("platform", Js.str "managed");
              ("quiet", Js.bool true)]
             (skipn 4 (Yargs.options (args options name packageVersion)))
             eq_refl).
  cbn [Yargs.unparseOptions flat_map fst snd Yargs.unparseOption app].
  change (Yargs.keyToFlag "project") with "--project".
  change (Yargs.keyToFlag "platform") with "--platform".
  change (Yargs.keyToFlag "quiet") with "--quiet".
  change (Yargs.keyToFlag "region") with "--region".
  cbn [filter]. rewrite gcloudDeploy_nonEmpty, Hn, Hp, Hr.
  change (Js.nonEmpty "--project") with true.
  change (Js.nonEmpty "--platform") with true.
  change (Js.nonEmpty "managed") with true.
  change (Js.nonEmpty "--quiet") with true.
  change (Js.nonEmpty "--region") with true.
  cbn [app]. eexists. reflexivity.
Qed.

(** X2. An option that is present with the empty string keeps its flag and
    loses its value: with an empty [project] the token [--project] is
    followed at once by [--platform]. *)
Theorem empty_value_leaves_bare_flag
        (options : ExecutorSchema) (name : string) (packageVersion : option string) :
  name <> "" ->
  project options = "" ->
  exists rest,
    commandParts options name packageVersion
    = gcloudDeploy options :: name
        :: "--project" :: "--platform" :: "managed" :: "--quiet" :: rest.
Proof.
  intros Hn Hp.
  apply nonEmpty_true in Hn.
  rewrite (@parts_of_entry options name packageVersion
             "quiet" (Js.bool true)
             [("project", Js.str (project options));
              ("platform", Js.str "managed")]
             (skipn 3 (Yargs.options (args options name packageVersion)))
             eq_refl).
  rewrite Hp.
  cbn [Yargs.unparseOptions flat_map fst snd Yargs.unparseOption app].
  change (Yargs.keyToFlag "project") with "--project".
  change (Yargs.keyToFlag "platform") with "--platform".
  change (Yargs.keyToFlag "quiet") with "--quiet".
  cbn [filter]. rewrite gcloudDeploy_nonEmpty, Hn.
  change (Js.nonEmpty "--project") with true.
  change (Js.nonEmpty "") with false.
  change (Js.nonEmpty "--platform") with true.
  change (Js.nonEmpty "managed") with true.
  change (Js.nonEmpty "--quiet") with true.
  cbn [app]. eexists. reflexivity.
Qed.

(** X3. A boolean option that is set reaches the command as its flag when
    [true] and as the flag prefixed by [--no-] when [false]: [cpuBoost: false]
    gives [--no-cpu-boost], [noTraffic: false] gives [--no-no-traffic],
    [allowUnauthenticated: false] gives [--no-allow-unauthenticated]. *)
Theorem boolean_option_tokens
        (options : ExecutorSchema) (name : string) (packageVersion : option string)
        (f : OptionalField) (b : bool) :
  booleanValue f options = Some b ->
  exists before after,
    commandParts options name packageVersion
    = (before ++ [if b then ("--" ++ flagOf f)%string else ("--no-" ++ flagOf f)%string] ++ after)%list.
Proof.
  intros H.
  assert (Hsplit : exists l1 l2,
             Yargs.options (args options name packageVersion)
             = (l1 ++ (flagOf f, Js.bool b) :: l2)%list).
  { destruct f; try discriminate H; cbn [booleanValue] in H;
      unfold args; rewrite H; cbn [Yargs.options Js.ofBool Js.coalesce defaultTo flagOf].
    - split_options 16%nat.
    - split_options 17%nat.
    - split_options 18%nat. }
  destruct Hsplit as (l1 & l2 & Hsplit).
  rewrite (@parts_of_entry _ _ _ _ _ _ _ Hsplit).
  eexists _, _. f_equal. f_equal.
  destruct f; try discriminate H; destruct b; reflexivity.
Qed.

(** X4. A numeric option that is set, zero and negative numbers included,
    reaches the command as its flag followed by the number in decimal. *)
Theorem numeric_option_tokens
        (options : ExecutorSchema) (name : string) (packageVersion : option string)
        (f : OptionalField) (n : Js.Number) :
  numericValue f options = Some n ->
  exists before after,
    commandParts options name packageVersion
    = (before ++ [("--" ++ flagOf f)%string; Js.showNumber n] ++ after)%list.
Proof.
  intros H.
  assert (Hsplit : exists l1 l2,
             Yargs.options (args options name packageVersion)
             = (l1 ++ (flagOf f, Js.number n) :: l2)%list).
  { destruct f; try discriminate H; cbn [numericValue] in H;
      unfold args; rewrite H; cbn [Yargs.options Js.ofNumber flagOf].
    - split_options 4%nat.
    - split_options 5%nat.
    - split_options 6%nat.
    - split_options 13%nat. }
  destruct Hsplit as (l1 & l2 & Hsplit).
  rewrite (@parts_of_entry _ _ _ _ _ _ _ Hsplit).
  eexists _, _. f_equal. f_equal.
  cbn [Yargs.unparseOption Js.toString filter].
  rewrite showNumber_nonEmpty.
  destruct f; try discriminate H; reflexivity.
Qed.

Lemma resolveVersion_quiet (options : ExecutorSchema) (context : ExecutorContext)
      (projRoot : string) (fs : FileSystem) :
  executed (events (resolveVersion options context projRoot fs)) = []
  /\ written (events (resolveVersion options context projRoot fs)) = [].
Proof.
  unfold resolveVersion, nodeVersion, pythonVersion.
  repeat match goal with
         | |- context [match ?x with _ => _ end] => destruct x
         end; split; reflexivity.
Qed.

(** The steps of the executor after the Dockerfile has been staged. *)
Lemma deployExecutor_steps (core : Core) (fs : FileSystem)
      (options : ExecutorSchema) (context : ExecutorContext) (projRoot : string) :
  projectRoot (Js.template (projectName context)) (projects context) = Some projRoot ->
  present (outputDirectory core options context) = true ->
  present (deploymentName options context) = true ->
  deployExecutor core fs options context
  = ((if present (dockerFile options) then
        match readFileSync fs [root context; Js.template (dockerFile options)] with
        | ReadThrows e => throw (Raised e)
        | ReadOk dockerFile =>
            match writeFileSync fs (dockerfileTarget core options context) dockerFile with
            | Some e => throw (Raised e)
            | None => emit (FileWritten (dockerfileTarget core options context) dockerFile)
            end
        end
      else ret tt) ;;
     packageVersion <- resolveVersion options context projRoot fs ;;
     (if present (volumeName options) then emit (LogWarn volumeWarning) else ret tt) ;;
     emit (Executed (fullCommand options (nameToken options context) packageVersion)
                    None (dryRun options)) ;;
     ret (execCommand core
            (fullCommand options (nameToken options context) packageVersion)
            (dryRun options)))%exec.
Proof.
  intros Hroot Hout Hname.
  unfold deployExecutor. rewrite Hroot, bind_ret, Hout, Hname. reflexivity.
Qed.

(** X5. A configured Dockerfile is copied as it is read to [Dockerfile] in
    the output directory, before anything else happens, and nothing else is
    ever written; when it cannot be read or written the executor stops there,
    with nothing logged or executed; without [dockerFile] nothing is
    written. *)
Theorem dockerfile_staging
        (core : Core) (fs : FileSystem) (options : ExecutorSchema)
        (context : ExecutorContext) (projRoot : string) :
  projectRoot (Js.template (projectName context)) (projects context) = Some projRoot ->
  present (outputDirectory core options context) = true ->
  present (deploymentName options context) = true ->
  let run := deployExecutor core fs options context in
  let target := dockerfileTarget core options context in
  if present (dockerFile options) then
    match readFileSync fs [root context; Js.template (dockerFile options)] with
    | ReadThrows e => run = ([], inl (Raised e))
    | ReadOk content =>
        match writeFileSync fs target content with
        | Some e => run = ([], inl (Raised e))
        | None =>
            written (events run) = [(target, content)]
            /\ exists later, events run = FileWritten target content :: later
        end
    end
  else written (events run) = [].
Proof.
  intros Hroot Hout Hname run target. subst run target.
  rewrite (deployExecutor_steps core fs options context Hroot Hout Hname).
  assert (Hrest : forall packageVersion,
             written (events
               ((if present (volumeName options)
                 then emit (LogWarn volumeWarning) else ret tt) ;;
                emit (Executed (fullCommand options (nameToken options context)
                                            packageVersion)
                               None (dryRun options)) ;;
                ret (execCommand core
                       (fullCommand options (nameToken options context) packageVersion)
                       (dryRun options)))%exec) = []).
  { intros pv. now destruct (present (volumeName options)). }
  destruct (resolveVersion_quiet options context projRoot fs) as [_ Hrv].
  destruct (present (dockerFile options)).
  - destruct (readFileSync fs _) as [e | content]; [reflexivity |].
    destruct (writeFileSync fs _ content) as [e |]; [reflexivity |].
    split.
    + rewrite written_bind. cbn [outcome emit snd events fst written flat_map app].
      rewrite written_bind, Hrv.
      destruct (outcome (resolveVersion options context projRoot fs));
        [reflexivity | now rewrite Hrest].
    + rewrite events_bind. cbn [outcome emit snd events fst app]. eexists. reflexivity.
  - rewrite written_bind. cbn [outcome ret snd events fst written flat_map app].
    rewrite written_bind, Hrv.
    destruct (outcome (resolveVersion options context projRoot fs));
      [reflexivity | now rewrite Hrest].
Qed.

(** X6. The executor runs at most one command. When it throws, no command
    has been run; when it returns, the only command run is the compiled one,
    it is the last event, it carries [dryRun], and the result is the success
    flag of that run. *)
Theorem single_execution
        (core : Core) (fs : FileSystem) (options : ExecutorSchema)
        (context : ExecutorContext) :
  let run := deployExecutor core fs options context in
  match outcome run with
  | inl _ => executed (events run) = []
  | inr success =>
      exists packageVersion earlier,
        let command := fullCommand options (nameToken options context) packageVersion in
        executed (events run) = [command]
        /\ events run = (earlier ++ [Executed command None (dryRun options)])%list
        /\ success = execCommand core command (dryRun options)
  end.
Proof.
  intros run. subst run.
  destruct (projectRoot (Js.template (projectName context)) (projects context))
    as [projRoot |] eqn:Hroot.
  2: { unfold deployExecutor. rewrite Hroot. reflexivity. }
  destruct (present (outputDirectory core options context)) eqn:Hout.
  2: { unfold deployExecutor. rewrite Hroot, bind_ret, Hout. reflexivity. }
  destruct (present (deploymentName options context)) eqn:Hname.
  2: { unfold deployExecutor. rewrite Hroot, bind_ret, Hout, Hname. reflexivity. }
  rewrite (deployExecutor_steps core fs options context Hroot Hout Hname).
  destruct (resolveVersion_quiet options context projRoot fs) as [Hrv _].
  match goal with
  | |- context [bind ?d _] =>
      match d with context [dockerFile options] => idtac end;
      assert (Hd : executed (events d) = []);
      [ repeat match goal with
               | |- context [match ?x with _ => _ end] => destruct x
               end; reflexivity
      | set (staged := d) in * ]
  end.
  rewrite outcome_bind.
  destruct (outcome staged) as [e | []] eqn:Hs; cbn iota.
  { now rewrite executed_bind, Hs. }
  rewrite outcome_bind.
  destruct (outcome (resolveVersion options context projRoot fs)) as [e | pv] eqn:Hr;
    cbn iota.
  { now rewrite executed_bind, Hs, Hd, executed_bind, Hr. }
  destruct (present (volumeName options));
    cbn [outcome bind emit ret snd app];
    exists pv;
    [ exists (events staged
                ++ events (resolveVersion options context projRoot fs)
                ++ [LogWarn volumeWarning])%list
    | exists (events staged
                ++ events (resolveVersion options context projRoot fs))%list ];
    rewrite executed_bind, Hs, Hd, executed_bind, Hr, Hrv;
    rewrite events_bind, Hs, events_bind, Hr;
    cbn [events outcome fst snd bind emit ret app executed flat_map];
    repeat split; rewrite <- ?app_assoc; reflexivity.
Qed.

(** X7. When tagging is not requested and no Dockerfile is configured, the
    executor touches no file: it logs the beta notice when a volume is
    configured, runs the command compiled without a version, and returns the
    success flag of that run. *)
Theorem untagged_run
        (core : Core) (fs : FileSystem) (options : ExecutorSchema)
        (context : ExecutorContext) (projRoot : string) :
  projectRoot (Js.template (projectName context)) (projects context) = Some projRoot ->
  present (outputDirectory core options context) = true ->
  present (deploymentName options context) = true ->
  present (dockerFile options) = false ->
  defaultTo (tagWithVersion options) false = false ->
  let command := fullCommand options (nameToken options context) None in
  deployExecutor core fs options context
  = ((if present (volumeName options) then [LogWarn volumeWarning] else [])
       ++ [Executed command None (dryRun options)],
     inr (execCommand core command (dryRun options)))%list.
Proof.
  intros Hroot Hout Hname Hdocker Htag command. subst command.
  rewrite (deployExecutor_steps core fs options context Hroot Hout Hname).
  unfold resolveVersion. rewrite Hdocker, Htag.
  now destruct (present (volumeName options)).
Qed.

Lemma resolveVersion_no_notice (options : ExecutorSchema) (context : ExecutorContext)
      (projRoot : string) (fs : FileSystem) :
  ~ In (LogWarn volumeWarning) (events (resolveVersion options context projRoot fs)).
Proof.
  unfold resolveVersion, nodeVersion, pythonVersion.
  repeat match goal with
         | |- context [match ?x with _ => _ end] => destruct x
         end; cbn; intros H;
    repeat (destruct H as [H | H]; [discriminate H |]); exact H.
Qed.

(** X8. A run that returns has logged the beta notice exactly when a volume
    is configured; no other step logs it. *)
Theorem volume_notice
        (core : Core) (fs : FileSystem) (options : ExecutorSchema)
        (context : ExecutorContext) (success : bool) :
  let run := deployExecutor core fs options context in
  outcome run = inr success ->
  (In (LogWarn volumeWarning) (events run) <-> present (volumeName options) = true).
Proof.
  intros run H. subst run.
  destruct (projectRoot (Js.template (projectName context)) (projects context))
    as [projRoot |] eqn:Hroot.
  2: { unfold deployExecutor in H. rewrite Hroot in H. discriminate H. }
  destruct (present (outputDirectory core options context)) eqn:Hout.
  2: { unfold deployExecutor in H. rewrite Hroot, bind_ret, Hout in H. discriminate H. }
  destruct (present (deploymentName options context)) eqn:Hname.
  2: { unfold deployExecutor in H. rewrite Hroot, bind_ret, Hout, Hname in H.
       discriminate H. }
  rewrite (deployExecutor_steps core fs options context Hroot Hout Hname) in *.
  pose proof (resolveVersion_no_notice options context projRoot fs) as Hrv.
  match goal with
  | |- context [bind ?d _] =>
      match d with context [dockerFile options] => idtac end;
      assert (Hd : ~ In (LogWarn volumeWarning) (events d));
      [ repeat match goal with
               | |- context [match ?x with _ => _ end] => destruct x
               end; cbn; intros Hin;
        repeat (destruct Hin as [Hin | Hin]; [discriminate Hin |]); exact Hin
      | set (staged := d) in * ]
  end.
  rewrite outcome_bind in H. rewrite events_bind.
  destruct (outcome staged) as [e | []]; [discriminate H |].
  rewrite outcome_bind in H. rewrite events_bind.
  destruct (outcome (resolveVersion options context projRoot fs)) as [e | pv];
    [discriminate H |].
  rewrite !in_app_iff.
  destruct (present (volumeName options)); cbn [events fst bind emit ret app In].
  - split; [reflexivity |]. intros _. right. right. now left.
  - split; [| discriminate].
    intros [Hin | [Hin | [Hin | Hin]]];
      [now apply Hd in Hin | now apply Hrv in Hin | discriminate Hin | contradiction].
Qed.

(** X9. The node branch gives a tag only for a [version] that is a non-empty
    string; it throws when the manifest exists and either cannot be parsed or
    holds a truthy [version] that is not a string; otherwise it gives no
    tag. *)
Theorem node_version_cases (fs : FileSystem) (path : Path) :
  match outcome (nodeVersion fs path) with
  | inr (Some tag) =>
      exists v, existsSync fs path = true
                /\ readJsonFile fs path = JsonParsed (JsonString v)
                /\ v <> "" /\ tag = versionTag v
  | inr None =>
      existsSync fs path = false
      \/ exists version, readJsonFile fs path = JsonParsed version
                         /\ jsonTruthy version = false
  | inl e =>
      existsSync fs path = true
      /\ (readJsonFile fs path = JsonThrows
                                   match e with
                                   | Raised m | Error m | TypeError m => m
                                   end
          \/ exists version, readJsonFile fs path = JsonParsed version
                             /\ jsonTruthy version = true
                             /\ (forall v, version <> JsonString v)
                             /\ exists m, e = TypeError m)
  end.
Proof.
  unfold nodeVersion.
  destruct (existsSync fs path); [| now left].
  destruct (readJsonFile fs path) as [e | version]; [now split; [| left] |].
  destruct (jsonTruthy version) eqn:Ht; [| right; now exists version].
  destruct version as [| | b | q | s |];
    try (split; [reflexivity |]; right; eexists;
         split; [reflexivity |]; split; [exact Ht |];
         split; [discriminate | eexists; reflexivity]).
  exists s. split; [reflexivity |]. split; [reflexivity |].
  split; [| reflexivity]. intros ->. discriminate Ht.
Qed.

(** X10. Every tag resolved from [pyproject.toml] comes from the manifest: it
    is the tag of a non-empty value [v] without quote characters, and the
    manifest holds [version = Q v Q] (either quote for each [Q], white space
    around the words) from the start of a line to the end of a line. *)
Theorem python_tag_origin (fs : FileSystem) (path : Path) (tag : string) :
  outcome (pythonVersion fs path) = inr (Some tag) ->
  exists content v before line after,
    readFileSync fs path = ReadOk content
    /\ tag = versionTag v
    /\ content = before ++ line ++ after
    /\ versionLine v line
    /\ v <> ""
    /\ Regex.allChars (fun c => negb (isQuote c)) v = true
    /\ Regex.atLineStart (Regex.lastChar None before) = true
    /\ Regex.atLineEnd after = true.
Proof.
  unfold pythonVersion.
  destruct (existsSync fs path); [| discriminate].
  destruct (readFileSync fs path) as [e | content]; [discriminate |].
  destruct (Regex.matchOf versionPattern content) as [res |] eqn:Hm; [| discriminate].
  destruct (matchOf_versionPattern_inv _ Hm)
    as (v & before & line & after & -> & Hc & Hl & Hne & Hv & Hs & He).
  cbn. intros H. inversion H; subst tag.
  now exists content, v, before, line, after.
Qed.

(** X11. A [pyproject.toml] that exists and is readable but does not hold the
    word [version] gives no tag and exactly one warning, and the executor
    goes on. *)
Theorem python_without_version_word (fs : FileSystem) (path : Path) (content : string) :
  existsSync fs path = true ->
  readFileSync fs path = ReadOk content ->
  Js.includes "version" content = false ->
  pythonVersion fs path
  = ([LogWarn "pyproject.toml found but no version field detected"], inr None).
Proof.
  intros He Hr Hno. unfold pythonVersion. rewrite He, Hr.
  destruct (Regex.matchOf versionPattern content) as [res |] eqn:Hm; [| reflexivity].
  exfalso.
  destruct (matchOf_versionPattern_inv _ Hm)
    as (v & before & line & after & _ & -> & Hl & _).
  destruct (versionLine_includes Hl) as (a & b & ->).
  replace (before ++ (a ++ "version" ++ b) ++ after)
    with ((before ++ a) ++ "version" ++ (b ++ after)) in Hno.
  - rewrite includes_append in Hno. discriminate Hno.
  - repeat (rewrite append_assoc || cbn [append]). reflexivity.
Qed.

End DeployExtras.

(** ** The executor built on [buildCommand], continued *)

Section LegacyExtras.

Import Legacy LegacyTerms.

Variable execCommand : ExecCommand.
Variable fs : FileSystem.
Variable options : ExecutorSchema.
Variable context : ExecutorContext.

(** The steps of the executor once the build target is known. *)
Lemma legacy_steps (proj : ProjectConfiguration) :
  projectOf (Js.template (projectName context)) (projects context) = Some proj ->
  Deploy.present (outputPath proj) = true ->
  deployExecutor execCommand fs options context
  = (staging fs options context proj ;;
     building execCommand options context proj ;;
     packageVersion <-
       packageVersion fs (boolOr (tagWithVersion options) false)
                      [root context; projRoot proj; "package.json"] ;;
     validSecrets <- validSecrets (Deploy.defaultTo (secrets options) []) ;;
     finishing execCommand options context proj packageVersion validSecrets)%exec.
Proof.
  intros Hproj Hout. unfold deployExecutor. rewrite Hproj, bind_ret.
  rewrite Hout.
  unfold staging, building, finishing, deployCommand, buildSubmitCommand,
    repoInfoCommand, nameOf, buildWithArtifactRegistry, distDirectory.
  cbv zeta. cbn [negb]. reflexivity.
Qed.

Lemma staging_facts (proj : ProjectConfiguration) :
  executed (events (staging fs options context proj)) = []
  /\ forall e, outcome (staging fs options context proj) = inl e ->
               exists m, e = Raised m.
Proof.
  unfold staging.
  repeat match goal with
         | |- context [match ?x with _ => _ end] => destruct x
         end; split; try reflexivity; intros e' H; inversion H; eauto.
Qed.

Lemma building_facts (proj : ProjectConfiguration) :
  let build := buildSubmitCommand options context in
  let ran := execCommand build (Some (distDirectory context proj)) in
  match outcome (building execCommand options context proj) with
  | inr _ =>
      executed (events (building execCommand options context proj))
      = (if buildWithArtifactRegistry options then [] else [build])
      /\ (buildWithArtifactRegistry options = false -> ran = true)
  | inl e =>
      e = Error "Failed building container!"
      /\ buildWithArtifactRegistry options = false /\ ran = false
      /\ executed (events (building execCommand options context proj)) = [build]
  end.
Proof.
  intros build ran. subst build ran. unfold building.
  destruct (buildWithArtifactRegistry options); cbn [negb].
  - split; [reflexivity | discriminate].
  - destruct (execCommand _ _) eqn:E; cbn; rewrite ?E; now repeat split.
Qed.

Lemma packageVersion_facts (b : bool) (path : Path) :
  events (packageVersion fs b path) = []
  /\ match outcome (packageVersion fs b path) with
     | inl e => (exists m, e = Raised m) \/ (exists m, e = TypeError m)
     | inr v => v = Js.null \/ exists version, b = true /\ v = Js.str ("v" ++ Js.replaceDots version)
     end.
Proof.
  unfold packageVersion.
  destruct b; [| split; [reflexivity | now left]].
  destruct (existsSync fs path); [| split; [reflexivity | now left]].
  destruct (readJsonFile fs path) as [e | version];
    [split; [reflexivity | left; now exists e] |].
  destruct (jsonTruthy version); [| split; [reflexivity | now left]].
  destruct version; split; try reflexivity; cbn;
    first [ right; eexists; reflexivity
          | right; eexists; split; reflexivity ].
Qed.

Lemma finishing_facts (proj : ProjectConfiguration) (pv : Js.value) (vs : list Js.value) :
  let deploy := deployCommand options context pv vs in
  outcome (finishing execCommand options context proj pv vs)
  = inr (execCommand deploy (Some (distDirectory context proj)))
  /\ executed (events (finishing execCommand options context proj pv vs))
     = ((if boolOr (generateRepoInfoFile options) false
         then [repoInfoCommand context proj] else [])
          ++ [deploy])%list.
Proof.
  unfold finishing.
  destruct (boolOr (generateRepoInfoFile options) false);
    destruct (0 <? List.length vs)%nat; split; reflexivity.
Qed.

Lemma validSecrets_facts (secrets : list string) :
  outcome (validSecrets secrets) = inr (map Js.str (filter validSecret secrets))
  /\ executed (events (validSecrets secrets)) = [].
Proof.
  rewrite validSecrets_run. split; [reflexivity |].
  cbn [events fst]. induction (filter _ secrets) as [| s l IH]; [reflexivity | exact IH].
Qed.

Lemma staging_warnings (proj : ProjectConfiguration) :
  warnings (events (staging fs options context proj)) = [].
Proof.
  unfold staging.
  repeat match goal with
         | |- context [match ?x with _ => _ end] => destruct x
         end; reflexivity.
Qed.

Lemma building_warnings (proj : ProjectConfiguration) :
  warnings (events (building execCommand options context proj)) = [].
Proof.
  unfold building.
  destruct (buildWithArtifactRegistry options); cbn [negb]; [reflexivity |].
  destruct (execCommand _ _) eqn:E; cbn; rewrite ?E; reflexivity.
Qed.

Lemma validSecrets_warnings (secrets : list string) :
  warnings (events (validSecrets secrets))
  = map invalidSecretWarning (filter (fun s => negb (validSecret s)) secrets).
Proof.
  rewrite validSecrets_run. cbn [events fst].
  induction (filter _ secrets) as [| s l IH]; [reflexivity |].
  cbn. now rewrite <- IH.
Qed.

Lemma finishing_events (proj : ProjectConfiguration) (pv : Js.value) (vs : list Js.value) :
  exists earlier,
    events (finishing execCommand options context proj pv vs)
    = (earlier ++ [Executed (deployCommand options context pv vs)
                            (Some (distDirectory context proj)) None])%list
    /\ warnings earlier = [].
Proof.
  unfold finishing.
  destruct (boolOr (generateRepoInfoFile options) false);
    destruct (0 <? List.length vs)%nat.
  - now exists [LogInfo "Generating repo info file";
                Executed (repoInfoCommand context proj) None None;
                LogInfo "Using secrets, use gcloud beta"].
  - now exists [LogInfo "Generating repo info file";
                Executed (repoInfoCommand context proj) None None].
  - now exists [LogInfo "Using secrets, use gcloud beta"].
  - now exists [].
Qed.

Lemma deployCommand_parts (pv : Js.value) (vs : list Js.value) :
  deployCommand options context pv vs
  = buildCommand (deployParts options (nameOf options context) pv vs).
Proof. reflexivity. Qed.

(** A run that returns ends with the deployment command built from the
    secrets that validation keeps, and its warnings are those of
    validation. *)
Lemma legacy_returning_run (success : bool) :
  outcome (deployExecutor execCommand fs options context) = inr success ->
  exists proj packageVersion earlier,
    let declared := Deploy.defaultTo (secrets options) [] in
    let kept := map Js.str (filter validSecret declared) in
    let deploy :=
      buildCommand (deployParts options (nameOf options context) packageVersion kept) in
    projectOf (Js.template (projectName context)) (projects context) = Some proj
    /\ events (deployExecutor execCommand fs options context)
       = (earlier ++ [Executed deploy (Some (distDirectory context proj)) None])%list
    /\ success = execCommand deploy (Some (distDirectory context proj))
    /\ warnings (events (deployExecutor execCommand fs options context))
       = map invalidSecretWarning (filter (fun s => negb (validSecret s)) declared).
Proof.
  intros H.
  destruct (projectOf (Js.template (projectName context)) (projects context))
    as [proj |] eqn:Hproj.
  2: { unfold deployExecutor in H. rewrite Hproj in H. discriminate H. }
  destruct (Deploy.present (outputPath proj)) eqn:Hout.
  2: { unfold deployExecutor in H. rewrite Hproj, bind_ret, Hout in H.
       discriminate H. }
  rewrite (legacy_steps Hproj Hout) in *.
  pose proof (staging_warnings proj) as Hsw.
  pose proof (building_warnings proj) as Hbw.
  rewrite outcome_bind in H. rewrite events_bind.
  destruct (outcome (staging fs options context proj)) as [e | []];
    [discriminate H |].
  rewrite outcome_bind in H. rewrite events_bind.
  destruct (outcome (building execCommand options context proj)) as [e | []];
    [discriminate H |].
  rewrite outcome_bind in H. rewrite events_bind.
  match type of H with
  | context [outcome (packageVersion ?f ?b ?p)] =>
      destruct (packageVersion_facts b p) as [Hpe _];
      destruct (outcome (packageVersion f b p)) as [e | pv]
  end; [discriminate H |].
  rewrite Hpe.
  rewrite outcome_bind in H. rewrite events_bind.
  destruct (validSecrets_facts (Deploy.defaultTo (secrets options) [])) as [Hvo _].
  pose proof (validSecrets_warnings (Deploy.defaultTo (secrets options) [])) as Hvw.
  rewrite Hvo in *.
  set (kept := map Js.str (filter validSecret (Deploy.defaultTo (secrets options) []))) in *.
  destruct (finishing_facts proj pv kept) as [Hfo _].
  destruct (finishing_events proj pv kept) as (pre & Hfe & Hpre).
  cbv zeta in Hfo. rewrite Hfo in H. rewrite Hfe.
  rewrite deployCommand_parts in *.
  exists proj, pv.
  exists (events (staging fs options context proj)
            ++ events (building execCommand options context proj)
            ++ [] ++ events (validSecrets (Deploy.defaultTo (secrets options) []))
            ++ pre)%list.
  cbv zeta. fold kept. split; [reflexivity |]. split; [| split].
  - rewrite <- !app_assoc. reflexivity.
  - congruence.
  - rewrite !warnings_app, Hsw, Hbw, Hvw, Hpre. cbn [app warnings flat_map].
    now rewrite app_nil_r.
Qed.

(** X12. The earlier executor throws ["No build target configured!"] exactly
    when the build target of the project has no output path, and then nothing
    has been logged, written or executed. *)
Theorem build_target_required (proj : ProjectConfiguration) :
  projectOf (Js.template (projectName context)) (projects context) = Some proj ->
  let run := deployExecutor execCommand fs options context in
  (outcome run = inl (Error "No build target configured!")
   <-> Deploy.present (outputPath proj) = false)
  /\ (Deploy.present (outputPath proj) = false -> events run = []).
Proof.
  intros Hproj run. subst run.
  destruct (Deploy.present (outputPath proj)) eqn:Hout.
  - split; [| discriminate]. split; [| discriminate].
    rewrite (legacy_steps Hproj Hout). intros H. exfalso.
    destruct (staging_facts proj) as [_ Hs].
    pose proof (building_facts proj) as Hb. cbv zeta in Hb.
    rewrite outcome_bind in H.
    destruct (outcome (staging fs options context proj)) as [e | []] eqn:Es.
    { destruct (Hs e eq_refl) as [m ->]. discriminate H. }
    rewrite outcome_bind in H.
    destruct (outcome (building execCommand options context proj)) as [e | []] eqn:Eb.
    { destruct Hb as [-> _]. discriminate H. }
    rewrite outcome_bind in H.
    match type of H with
    | context [outcome (packageVersion ?f ?b ?p)] =>
        destruct (packageVersion_facts b p) as [_ Hp];
        destruct (outcome (packageVersion f b p)) as [e | pv] eqn:Ep
    end.
    { destruct Hp as [[m ->] | [m ->]]; discriminate H. }
    rewrite outcome_bind in H.
    destruct (validSecrets_facts (Deploy.defaultTo (secrets options) [])) as [-> _] in H.
    destruct (finishing_facts proj pv
                (map Js.str (filter validSecret (Deploy.defaultTo (secrets options) []))))
      as [Hf _].
    cbv zeta in Hf. rewrite Hf in H. discriminate H.
  - unfold deployExecutor. rewrite Hproj, bind_ret, Hout. now repeat split.
Qed.

(** X13. The earlier executor throws ["Failed building container!"] only
    after it has run [gcloud builds submit] in the output directory, that run
    being the only command executed, when the container is not built by the
    artifact registry and that run fails; with the Dockerfile staged, such a
    failed run always ends this way, before any deployment. *)
Theorem failed_build_stops (proj : ProjectConfiguration) :
  projectOf (Js.template (projectName context)) (projects context) = Some proj ->
  let run := deployExecutor execCommand fs options context in
  let build := buildSubmitCommand options context in
  (outcome run = inl (Error "Failed building container!") ->
   buildWithArtifactRegistry options = false
   /\ execCommand build (Some (distDirectory context proj)) = false
   /\ executed (events run) = [build])
  /\ (Deploy.present (outputPath proj) = true ->
      outcome (staging fs options context proj) = inr tt ->
      buildWithArtifactRegistry options = false ->
      execCommand build (Some (distDirectory context proj)) = false ->
      outcome run = inl (Error "Failed building container!")
      /\ executed (events run) = [build]).
Proof.
  intros Hproj run build. subst run build.
  destruct (staging_facts proj) as [Hse Hs].
  pose proof (building_facts proj) as Hb. cbv zeta in Hb.
  split.
  - intros H.
    destruct (Deploy.present (outputPath proj)) eqn:Hout.
    2: { unfold deployExecutor in H. rewrite Hproj, bind_ret, Hout in H.
         discriminate H. }
    rewrite (legacy_steps Hproj Hout) in *.
    rewrite outcome_bind in H. rewrite executed_bind.
    destruct (outcome (staging fs options context proj)) as [e | []] eqn:Es.
    { destruct (Hs e eq_refl) as [m ->]. discriminate H. }
    rewrite outcome_bind in H. rewrite executed_bind, Hse.
    destruct (outcome (building execCommand options context proj)) as [e | []] eqn:Eb.
    { destruct Hb as (_ & Har & Hran & Hex). now rewrite Hex. }
    exfalso. rewrite outcome_bind in H.
    match type of H with
    | context [outcome (packageVersion ?f ?b ?p)] =>
        destruct (packageVersion_facts b p) as [_ Hp];
        destruct (outcome (packageVersion f b p)) as [e | pv] eqn:Ep
    end.
    { destruct Hp as [[m ->] | [m ->]]; discriminate H. }
    rewrite outcome_bind in H.
    destruct (validSecrets_facts (Deploy.defaultTo (secrets options) [])) as [-> _] in H.
    destruct (finishing_facts proj pv
                (map Js.str (filter validSecret (Deploy.defaultTo (secrets options) []))))
      as [Hf _].
    cbv zeta in Hf. rewrite Hf in H. discriminate H.
  - intros Hout Es Har Hran.
    rewrite (legacy_steps Hproj Hout).
    rewrite outcome_bind, executed_bind, Es, Hse.
    rewrite outcome_bind, executed_bind.
    unfold building in *. rewrite Har in *. cbn [negb] in *.
    rewrite Hran in *. now split.
Qed.


End LegacyExtras.

Section LegacyTokens.

Import Legacy LegacyTerms.

Lemma and_truthy (c x : Js.value) :
  Js.truthy (Js.and c x) = true -> Js.and c x = x /\ Js.truthy c = true.
Proof.
  unfold Js.and. destruct (Js.truthy c) eqn:E; [now split | congruence].
Qed.

Lemma deployTokens_In (options : ExecutorSchema) (name packageVersion : Js.value)
      (validSecrets : list Js.value) (t : string) :
  In t (deployTokens options name packageVersion validSecrets)
  <-> exists e, In e (deployParts options name packageVersion validSecrets)
                /\ Js.truthy e = true /\ t = Js.toString e.
Proof.
  unfold deployTokens. rewrite in_map_iff. split.
  - intros (e & <- & He). apply filter_In in He. destruct He. now exists e.
  - intros (e & He & Ht & ->). exists e. split; [reflexivity |].
    apply filter_In. now split.
Qed.

(** Each entry of the array, with what it is when it is kept. *)
Ltac entry H Ht :=
  first
    [ apply and_truthy in Ht; destruct Ht as [Ht ?Hc]; rewrite Ht in H
    | idtac ];
  cbn [Js.toString] in H.

Ltac no_such_prefix H :=
  solve [ cbn in H; discriminate H
        | unfold gcloudCommand in H;
          match type of H with
          | context [if ?c then _ else _] => destruct c
          end; cbn in H; discriminate H ].

(** X15. The deployment command of the earlier executor names exactly one
    origin for the container: the token [--source=./] when the artifact
    registry builds it, the token [--image=gcr.io/<project>/<name>]
    otherwise, never both and never neither. *)
Theorem image_or_source
        (options : ExecutorSchema) (name packageVersion : Js.value)
        (validSecrets : list Js.value) :
  let tokens := deployTokens options name packageVersion validSecrets in
  ((exists t, In t tokens /\ prefix "--source=" t = true)
   <-> buildWithArtifactRegistry options = true)
  /\ ((exists t, In t tokens /\ prefix "--image=" t = true)
      <-> buildWithArtifactRegistry options = false)
  /\ In (if buildWithArtifactRegistry options
         then "--source=./"
         else "--image=gcr.io/" ++ project options ++ "/" ++ Js.toString name)
        tokens.
Proof.
  intros tokens. subst tokens.
  assert (Hin : In (if buildWithArtifactRegistry options
                    then "--source=./"
                    else "--image=gcr.io/" ++ project options ++ "/" ++ Js.toString name)
                   (deployTokens options name packageVersion validSecrets)).
  { apply deployTokens_In. unfold deployParts, buildWithArtifactRegistry.
    destruct (match buildWith options with
              | Some b => b =? "artifact-registry"
              | None => true
              end).
    - eexists. split; [do 2 right; left; reflexivity | now split].
    - eexists. split; [right; left; reflexivity | now split]. }
  split; [| split; [| exact Hin]].
  - split.
    + intros (t & Ht & Hp). apply deployTokens_In in Ht.
      destruct Ht as (e & He & Htr & ->).
      unfold deployParts in He. cbv zeta in He. cbn [In] in He.
      fold (buildWithArtifactRegistry options) in He.
      repeat (destruct He as [He | He];
              [subst e; try (entry Hp Htr); try no_such_prefix Hp |]);
        try contradiction.
      destruct (buildWithArtifactRegistry options); [reflexivity | discriminate Hc].
    + intros Har. rewrite Har in Hin. eexists. split; [exact Hin | reflexivity].
  - split.
    + intros (t & Ht & Hp). apply deployTokens_In in Ht.
      destruct Ht as (e & He & Htr & ->).
      unfold deployParts in He. cbv zeta in He. cbn [In] in He.
      fold (buildWithArtifactRegistry options) in He.
      repeat (destruct He as [He | He];
              [subst e; try (entry Hp Htr); try no_such_prefix Hp |]);
        try contradiction.
      destruct (buildWithArtifactRegistry options); [discriminate Hc | reflexivity].
    + intros Har. rewrite Har in Hin. eexists. split; [exact Hin | reflexivity].
Qed.

(** X16. The deployment command of the earlier executor holds a [--tag=]
    token exactly when tagging is requested and a version was resolved, and
    the token is then [--tag=<version tag>]; no other tag token is ever
    emitted. *)
Theorem legacy_tag_token
        (options : ExecutorSchema) (name packageVersion : Js.value)
        (validSecrets : list Js.value) :
  let tokens := deployTokens options name packageVersion validSecrets in
  let tagged := boolOr (tagWithVersion options) false && Js.truthy packageVersion in
  ((exists t, In t tokens /\ prefix "--tag=" t = true) <-> tagged = true)
  /\ (forall t, In t tokens -> prefix "--tag=" t = true ->
                t = "--tag=" ++ Js.toString packageVersion)
  /\ (tagged = true -> In ("--tag=" ++ Js.toString packageVersion) tokens).
Proof.
  intros tokens tagged. subst tokens tagged.
  assert (Hcase : forall t,
             In t (deployTokens options name packageVersion validSecrets) ->
             prefix "--tag=" t = true ->
             t = "--tag=" ++ Js.toString packageVersion
             /\ boolOr (tagWithVersion options) false && Js.truthy packageVersion = true).
  { intros t Ht Hp. apply deployTokens_In in Ht.
    destruct Ht as (e & He & Htr & ->).
    unfold deployParts in He. cbv zeta in He. cbn [In] in He.
    repeat (destruct He as [He | He];
            [subst e; try (entry Hp Htr); try no_such_prefix Hp |]);
      try contradiction.
    split; [now rewrite Htr |].
    pose proof (and_truthy _ _ Hc) as [Heq Hb].
    rewrite Heq in Hc. cbn [Js.truthy] in Hb.
    now rewrite Hb, Hc. }
  assert (Hin : boolOr (tagWithVersion options) false && Js.truthy packageVersion = true ->
                In ("--tag=" ++ Js.toString packageVersion)
                   (deployTokens options name packageVersion validSecrets)).
  { intros H. apply andb_true_iff in H. destruct H as [Hb Hv].
    apply deployTokens_In. unfold deployParts. cbv zeta.
    eexists. split; [do 18 right; left; reflexivity |].
    unfold Js.and. cbn [Js.truthy]. rewrite Hb, Hv. now split. }
  split; [| split; [| exact Hin]].
  - split.
    + intros (t & Ht & Hp). now destruct (Hcase t Ht Hp).
    + intros H. eexists. split; [exact (Hin H) | apply (prefix_append "--tag=")].
  - intros t Ht Hp. now destruct (Hcase t Ht Hp).
Qed.

(** X17. In the earlier executor a [timeout] of zero is dropped like an
    absent one: the command holds a [--timeout=] token exactly when
    [timeout] is set to a number other than zero, and the token then carries
    that number in decimal. *)
Theorem legacy_timeout_token
        (options : ExecutorSchema) (name packageVersion : Js.value)
        (validSecrets : list Js.value) :
  let tokens := deployTokens options name packageVersion validSecrets in
  ((exists t, In t tokens /\ prefix "--timeout=" t = true)
   <-> exists n, timeout options = Some n /\ Js.integer n <> 0%Z)
  /\ (forall n, timeout options = Some n -> Js.integer n <> 0%Z ->
                In ("--timeout=" ++ Js.showNumber n) tokens).
Proof.
  intros tokens. subst tokens.
  assert (Hin : forall n, timeout options = Some n -> Js.integer n <> 0%Z ->
                          In ("--timeout=" ++ Js.showNumber n)
                             (deployTokens options name packageVersion validSecrets)).
  { intros n Hn Hz. apply deployTokens_In. unfold deployParts. cbv zeta.
    eexists. split; [do 14 right; left; reflexivity |].
    rewrite Hn. unfold Js.and. cbn [numberOr Js.truthy].
    apply Z.eqb_neq in Hz. rewrite Hz. now split. }
  split; [| exact Hin].
  split.
  - intros (t & Ht & Hp). apply deployTokens_In in Ht.
    destruct Ht as (e & He & Htr & ->).
    unfold deployParts in He. cbv zeta in He. cbn [In] in He.
    repeat (destruct He as [He | He];
            [subst e; try (entry Hp Htr); try no_such_prefix Hp |]);
      try contradiction.
    destruct (timeout options) as [n |]; [| discriminate Hc].
    exists n. split; [reflexivity |].
    cbn [numberOr Js.truthy] in Hc. intros Hz. rewrite Hz in Hc. discriminate Hc.
  - intros (n & Hn & Hz). eexists.
    split; [exact (Hin n Hn Hz) | apply (prefix_append "--timeout=")].
Qed.

(** X18. The deployment command of the earlier executor always holds, next
    to each other and in this order, the project, the platform, the memory
    limit, the region, the instance bounds and the concurrency, the numbers
    in decimal; a bound or limit that is not configured takes its default:
    [128Mi], [0], [10] and [250]. *)
Theorem legacy_fixed_flags
        (options : ExecutorSchema) (name packageVersion : Js.value)
        (validSecrets : list Js.value) :
  exists before after,
    deployTokens options name packageVersion validSecrets
    = (before
         ++ [ ("--project=" ++ project options)%string;
              "--platform=managed";
              ("--memory=" ++ Deploy.defaultTo (memory options) "128Mi")%string;
              ("--region=" ++ region options)%string;
              ("--min-instances="
                 ++ Js.showNumber (Deploy.defaultTo (minInstances options)
                                                (Js.numeral 0 eq_refl)))%string;
              ("--max-instances="
                 ++ Js.showNumber (Deploy.defaultTo (maxInstances options)
                                                (Js.numeral 10 eq_refl)))%string;
              ("--concurrency="
                 ++ Js.showNumber (Deploy.defaultTo (concurrency options)
                                                (Js.numeral 250 eq_refl)))%string ]
         ++ after)%list.
Proof.
  unfold deployTokens.
  set (parts := deployParts options name packageVersion validSecrets).
  assert (Hsplit : parts = (firstn 3 parts ++ firstn 7 (skipn 3 parts)
                              ++ skipn 10 parts)%list).
  { rewrite <- (firstn_skipn 3 parts) at 1.
    apply (f_equal (app (firstn 3 parts))).
    rewrite <- (firstn_skipn 7 (skipn 3 parts)) at 1.
    apply (f_equal (app (firstn 7 (skipn 3 parts)))).
    apply skipn_skipn. }
  rewrite Hsplit, !filter_app, !map_app.
  eexists _, _. f_equal. f_equal.
  subst parts. unfold deployParts. cbv zeta. cbn [skipn firstn].
  cbn [filter Js.truthy String.eqb append negb map Js.toString].
  destruct (memory options), (minInstances options), (maxInstances options),
    (concurrency options); reflexivity.
Qed.

Lemma tokens_In (parts : list Js.value) (t : string) :
  In t (map Js.toString (filter Js.truthy parts))
  <-> exists e, In e parts /\ Js.truthy e = true /\ t = Js.toString e.
Proof.
  rewrite in_map_iff. split.
  - intros (e & <- & He). apply filter_In in He. destruct He. now exists e.
  - intros (e & He & Ht & ->). exists e. split; [reflexivity |].
    apply filter_In. now split.
Qed.

Lemma set_secrets_token (options : ExecutorSchema) (name packageVersion : Js.value)
      (valid : list string) :
  let tokens :=
    map Js.toString
        (filter Js.truthy (deployParts options name packageVersion (map Js.str valid))) in
  (valid <> [] -> In ("--set-secrets=" ++ Js.join "," valid) tokens)
  /\ (forall t, In t tokens -> prefix "--set-secrets=" t = true ->
                valid <> [] /\ t = "--set-secrets=" ++ Js.join "," valid).
Proof.
  intros tokens. subst tokens.
  assert (Hjoin : map Js.toString (map Js.str valid) = valid)
    by (rewrite map_map; apply map_id).
  split.
  - intros Hne. apply tokens_In. unfold deployParts. cbv zeta.
    eexists. split; [do 19 right; left; reflexivity |].
    rewrite length_map, Hjoin.
    destruct valid as [| s l]; [contradiction |]. now split.
  - intros t Ht Hp. apply tokens_In in Ht.
    destruct Ht as (e & He & Htr & ->).
    unfold deployParts in He. cbv zeta in He. cbn [In] in He.
    repeat (destruct He as [He | He];
            [subst e; try (entry Hp Htr); try no_such_prefix Hp |]);
      try contradiction.
    rewrite Htr, Hjoin. split; [| reflexivity].
    rewrite length_map in Hc. intros ->. discriminate Hc.
Qed.

(** C9 (as amended). Validation keeps, in order, the secrets that contain both
    [=] and [:], which every entry of the form [NAME=SECRET:VERSION] does, and
    drops each other entry with one warning; it never throws. The
    [--set-secrets] entry of the command joins the kept secrets with commas
    and is absent when none is kept. The executor ends as it does on the
    configuration holding the kept secrets only, with the same events up to
    warnings. A run that returns has run, last, the deployment command built
    from the kept secrets: its tokens hold [--set-secrets=] followed by the
    kept secrets joined with commas when one or more is kept and no
    [--set-secrets=] token otherwise, and the warnings of the run are those
    of the dropped entries, one each, in order. *)
Theorem secret_validation
        (execCommand : ExecCommand) (fs : FileSystem)
        (options : ExecutorSchema) (context : ExecutorContext) :
  let declared := Deploy.defaultTo (secrets options) [] in
  let valid := filter validSecret declared in
  let run := deployExecutor execCommand fs options context in
  validSecrets declared
  = (map (fun s => LogWarn (invalidSecretWarning s))
         (filter (fun s => negb (validSecret s)) declared),
     inr (map Js.str valid))
  /\ (forall s, wellFormedSecret s -> validSecret s = true)
  /\ (forall name packageVersion,
         In (if (0 <? List.length valid)%nat
             then Js.str ("--set-secrets=" ++ Js.join "," valid)
             else Js.bool false)
            (deployParts options name packageVersion (map Js.str valid)))
  /\ sameButWarnings
       run
       (deployExecutor execCommand fs (withSecrets options (Some valid)) context)
  /\ (forall success,
         outcome run = inr success ->
         exists packageVersion cwd earlier,
           let parts :=
             deployParts options (nameOf options context) packageVersion
                         (map Js.str valid) in
           let tokens := map Js.toString (filter Js.truthy parts) in
           events run
           = (earlier ++ [Executed (buildCommand parts) cwd None])%list
           /\ success = execCommand (buildCommand parts) cwd
           /\ buildCommand parts = Js.join " " tokens
           /\ (valid <> [] -> In ("--set-secrets=" ++ Js.join "," valid) tokens)
           /\ (forall t, In t tokens -> prefix "--set-secrets=" t = true ->
                         valid <> [] /\ t = "--set-secrets=" ++ Js.join "," valid)
           /\ warnings (events run)
              = map invalidSecretWarning
                    (filter (fun s => negb (validSecret s)) declared)).
Proof.
  intros declared valid run.
  split; [apply validSecrets_run |].
  split; [apply wellFormed_valid |].
  split; [| split; [apply deployExecutor_withSecrets |]].
  - intros name packageVersion. unfold deployParts.
    do 19 right. left.
    rewrite length_map, map_map. cbn [Js.toString]. rewrite map_id.
    now destruct (0 <? List.length valid)%nat.
  - intros success H.
    destruct (legacy_returning_run _ _ _ _ H)
      as (proj & pv & earlier & _ & Hev & Hs & Hw).
    exists pv, (Some (distDirectory context proj)), earlier.
    destruct (set_secrets_token options (nameOf options context) pv valid)
      as [Hin Hall].
    cbv zeta in Hev, Hs, Hw, Hin, Hall. cbv zeta.
    split; [exact Hev |]. split; [exact Hs |]. split; [reflexivity |].
    split; [exact Hin |]. split; [exact Hall |]. exact Hw.
Qed.

End LegacyTokens.

(** ** Concrete runs, continued *)

Section MoreConcreteRuns.

Import Deploy.

#[local] Existing Instance Fixture.model.

Lemma command_head_witness :
  exists rest,
    commandParts Fixture.svc "svc" None
    = "gcloud run deploy" :: "svc" :: "--project" :: "p1" :: "--platform" :: "managed"
        :: "--quiet" :: "--region" :: "us-central1" :: rest.
Proof.
  apply (command_head Fixture.svc (name := "svc") None); discriminate.
Defined.

Lemma empty_value_leaves_bare_flag_witness :
  exists rest,
    commandParts (Samples.scaled "") "svc" None
    = "gcloud run deploy" :: "svc" :: "--project" :: "--platform" :: "managed"
        :: "--quiet" :: rest.
Proof.
  apply (empty_value_leaves_bare_flag (Samples.scaled "") (name := "svc") None);
    [discriminate | reflexivity].
Defined.

Lemma boolean_option_tokens_witness :
  exists before after,
    commandParts (Samples.scaled "p1") "svc" None
    = (before ++ ["--no-no-traffic"] ++ after)%list.
Proof.
  exact (boolean_option_tokens (Samples.scaled "p1") "svc" None NoTraffic eq_refl).
Defined.

Lemma numeric_option_tokens_witness :
  exists before after,
    commandParts (Samples.scaled "p1") "svc" None
    = (before ++ ["--min-instances"; "0"] ++ after)%list.
Proof.
  exact (numeric_option_tokens (Samples.scaled "p1") "svc" None MinInstances eq_refl).
Defined.

Lemma dockerfile_staging_witness :
  written (events (deployExecutor Fixture.core Samples.dockerFs
                                  (Samples.scaled "p1") Fixture.context))
  = [(["/workspace"; "dist/apps/api"; "Dockerfile"], "FROM node:20")].
Proof.
  exact (proj1 (dockerfile_staging Fixture.core Samples.dockerFs (Samples.scaled "p1")
                                   Fixture.context (projRoot := "apps/api")
                                   eq_refl eq_refl eq_refl)).
Defined.

Lemma single_execution_witness :
  executed (events (deployExecutor Fixture.core (Fixture.files None None)
                                   (Samples.scaled "p1") Fixture.context))
  = [].
Proof.
  exact (single_execution Fixture.core (Fixture.files None None)
                          (Samples.scaled "p1") Fixture.context).
Defined.

Lemma untagged_run_witness :
  deployExecutor Fixture.core (Fixture.files None None) Fixture.svc Fixture.context
  = ([Executed (fullCommand Fixture.svc "svc" None) None None], inr true).
Proof.
  exact (untagged_run Fixture.core (Fixture.files None None) Fixture.svc Fixture.context
                      (projRoot := "apps/api")
                      eq_refl eq_refl eq_refl eq_refl eq_refl).
Defined.

Lemma python_tag_origin_witness :
  exists content v before line after,
    readFileSync (Fixture.files None (Some (ReadOk Fixture.pyproject)))
                 (Fixture.manifestPath "pyproject.toml")
    = ReadOk content
    /\ "v0-4-0" = versionTag v
    /\ content = before ++ line ++ after
    /\ versionLine v line
    /\ v <> ""
    /\ Regex.allChars (fun c => negb (isQuote c)) v = true
    /\ Regex.atLineStart (Regex.lastChar None before) = true
    /\ Regex.atLineEnd after = true.
Proof.
  exact (python_tag_origin (Fixture.files None (Some (ReadOk Fixture.pyproject)))
                           (Fixture.manifestPath "pyproject.toml") eq_refl).
Defined.

Lemma python_without_version_word_witness :
  pythonVersion (Fixture.files None (Some (ReadOk "[project]")))
                (Fixture.manifestPath "pyproject.toml")
  = ([LogWarn "pyproject.toml found but no version field detected"], inr None).
Proof.
  exact (python_without_version_word
           (Fixture.files None (Some (ReadOk "[project]")))
           (Fixture.manifestPath "pyproject.toml")
           eq_refl eq_refl eq_refl).
Defined.

Lemma node_version_cases_witness :
  existsSync (Fixture.files (Some (JsonParsed (JsonNumber 1))) None)
             (Fixture.manifestPath "package.json") = true
  /\ (readJsonFile (Fixture.files (Some (JsonParsed (JsonNumber 1))) None)
                   (Fixture.manifestPath "package.json")
      = JsonThrows "packageJson.version.replace is not a function"
      \/ exists version,
          readJsonFile (Fixture.files (Some (JsonParsed (JsonNumber 1))) None)
                       (Fixture.manifestPath "package.json")
          = JsonParsed version
          /\ jsonTruthy version = true
          /\ (forall v, version <> JsonString v)
          /\ exists m, TypeError "packageJson.version.replace is not a function"
                       = TypeError m).
Proof.
  exact (node_version_cases (Fixture.files (Some (JsonParsed (JsonNumber 1))) None)
                            (Fixture.manifestPath "package.json")).
Defined.

Lemma volume_notice_witness :
  In (LogWarn volumeWarning)
     (events (deployExecutor Fixture.core (Fixture.files None None)
                             Fixture.withVolume Fixture.context))
  <-> present (volumeName Fixture.withVolume) = true.
Proof.
  exact (volume_notice Fixture.core (Fixture.files None None)
                       Fixture.withVolume Fixture.context (success := true) eq_refl).
Defined.

End MoreConcreteRuns.

Section MoreLegacyRuns.

Import Legacy LegacyTerms.

Lemma build_target_required_witness :
  projectOf (Js.template (projectName Fixture.legacyContext))
            (projects Fixture.legacyContext)
  = Some Samples.apiProject
  /\ (outcome (deployExecutor Fixture.succeed (Fixture.files None None)
                              Samples.submitted Fixture.legacyContext)
      = inl (Error "No build target configured!")
      <-> Deploy.present (outputPath Samples.apiProject) = false).
Proof.
  split; [reflexivity |].
  exact (proj1 (build_target_required Fixture.succeed (Fixture.files None None)
                                      Samples.submitted Fixture.legacyContext
                                      (proj := Samples.apiProject) eq_refl)).
Defined.

Lemma failed_build_stops_witness :
  outcome (deployExecutor Samples.failing (Fixture.files None None)
                          Samples.submitted Fixture.legacyContext)
  = inl (Error "Failed building container!")
  /\ executed (events (deployExecutor Samples.failing (Fixture.files None None)
                                      Samples.submitted Fixture.legacyContext))
     = ["gcloud builds submit --tag=gcr.io/p1/svc --project=p1"].
Proof.
  exact (proj2 (failed_build_stops Samples.failing (Fixture.files None None)
                                   Samples.submitted Fixture.legacyContext
                                   (proj := Samples.apiProject) eq_refl)
               eq_refl eq_refl eq_refl eq_refl).
Defined.


Lemma image_or_source_witness :
  In "--image=gcr.io/p1/svc"
     (deployTokens Samples.submitted (Js.str "svc") Js.null []).
Proof.
  exact (proj2 (proj2 (image_or_source Samples.submitted (Js.str "svc") Js.null []))).
Defined.

Lemma legacy_tag_token_witness :
  In "--tag=v1-2-3" (deployTokens Samples.submitted (Js.str "svc") (Js.str "v1-2-3") []).
Proof.
  exact (proj2 (proj2 (legacy_tag_token Samples.submitted (Js.str "svc")
                                        (Js.str "v1-2-3") []))
               eq_refl).
Defined.

Lemma legacy_timeout_token_witness :
  In "--timeout=30" (deployTokens Samples.submitted (Js.str "svc") Js.null []).
Proof.
  refine (proj2 (legacy_timeout_token Samples.submitted (Js.str "svc") Js.null [])
                (Js.numeral 30 eq_refl) eq_refl _).
  discriminate.
Defined.

Lemma legacy_fixed_flags_witness :
  exists before after,
    deployTokens Samples.submitted (Js.str "svc") Js.null []
    = (before
         ++ ["--project=p1"; "--platform=managed"; "--memory=128Mi";
             "--region=europe-west1"; "--min-instances=0"; "--max-instances=10";
             "--concurrency=250"]
         ++ after)%list.
Proof.
  exact (legacy_fixed_flags Samples.submitted (Js.str "svc") Js.null []).
Defined.

Lemma secret_validation_witness :
  (Legacy.wellFormedSecret "API_KEY=api-key:latest"
   /\ Legacy.validSecret "API_KEY=api-key:latest" = true)
  /\ (let options :=
        Fixture.legacyOptions (Some ["API_KEY=api-key:latest"; "broken"]) in
      let run :=
        Legacy.deployExecutor Fixture.succeed (Fixture.files None None)
                              options Fixture.legacyContext in
      outcome run = inr true
      /\ exists packageVersion,
          In "--set-secrets=API_KEY=api-key:latest"
             (map Js.toString
                  (filter Js.truthy
                          (Legacy.deployParts options (Js.str "svc") packageVersion
                                              [Js.str "API_KEY=api-key:latest"])))
          /\ warnings (events run) = [Legacy.invalidSecretWarning "broken"]).
Proof.
  split.
  - assert (H : Legacy.wellFormedSecret "API_KEY=api-key:latest")
      by (exists "API_KEY", "api-key", "latest"; reflexivity).
    split; [exact H |].
    exact (proj1 (proj2 (secret_validation
                           Fixture.succeed (Fixture.files None None)
                           (Fixture.legacyOptions None) Fixture.legacyContext))
                 _ H).
  - cbv zeta. split; [reflexivity |].
    destruct (proj2 (proj2 (proj2 (proj2
                (secret_validation
                   Fixture.succeed (Fixture.files None None)
                   (Fixture.legacyOptions (Some ["API_KEY=api-key:latest"; "broken"]))
                   Fixture.legacyContext)))) true eq_refl)
      as (pv & cwd & earlier & _ & _ & _ & Hin & _ & Hw).
    exists pv. split; [| exact Hw].
    apply Hin. discriminate.
Defined.

End MoreLegacyRuns.
